(** * Owner-swap log analyzer: a shallow embedding and its properties

    Source: [ownerswap_analyzer/ownerswap_analyzer.py].

    The analyzer reads a device log line by line, turns each line into at
    most one protocol event, drives an integer-coded state machine with the
    events, stops at the first diagnostic different from ["OK"] and appends
    one row per file to a CSV report.

    Modelling choices.
    - States and events are the Python [int] constants of the source, so the
      transition function ranges over [Z] and keeps its [Unknown state]
      fallback.  The nine states and six events are also given as
      enumerations, with their codes, to quantify over "every state" and
      "every event".
    - A line is a [string].  All six patterns of the source are literal
      texts (the only escape is [\|], a literal bar), so [re.search] is
      substring search.
    - [for line in file] is a list of read events: the iterator either
      yields a line or raises.  [open] may raise as well.  An exception is
      a value carrying its text ([str(e)]).
    - The report is the list of rows written so far; a row is the list of
      cells handed to [csv.writer.writerow].  [analyze_log_file] and [main]
      give the report of a run in which no write fails; module [Fallible]
      gives the run as the source has it, in which a write to the report, a
      [print] or the removal of the old report can raise, with the console
      output and the state of the report at the moment of the failure
      (theorem [run_without_failure] relates the two). *)

From Stdlib Require Import ZArith String Ascii List Bool Lia DecimalString.
Import ListNotations.

Local Open Scope Z_scope.
Local Open Scope string_scope.

(** ** Constants (source lines 5-22) *)

Definition STATE_WAITING_FOR_OWNER_PAIRING : Z := 0.
Definition STATE_OWNER_PAIRING_STARTED : Z := 1.
Definition STATE_OWNER_PAIRING_COMPLETED : Z := 2.
Definition STATE_OWNER_SWAP_INITIATED : Z := 3.
Definition STATE_OLD_OWNER_DISCONNECTED : Z := 4.
Definition STATE_OWNER_SWAP_COMPLETED : Z := 5.
Definition STATE_BOND_DELETED_STILL_CONNECTED : Z := 6.
Definition STATE_NEW_OWNER_DISCONNECTED_BOND_STILL_EXIST : Z := 7.
Definition STATE_OWNER_SWAP_SUCCESS : Z := 8.

Definition EVENT_OWNER_PAIRING_STARTED : Z := 0.
Definition EVENT_OWNER_PAIRING_COMPLETED : Z := 1.
Definition EVENT_OLD_OWNER_DISCONNECTED : Z := 2.
Definition EVENT_BOND_DELETION : Z := 3.
Definition EVENT_BOND_DELETION_FAILED : Z := 4.
Definition EVENT_NEW_OWNER_DISCONNECTED : Z := 5.

(** The same constants as closed enumerations. *)

Inductive State : Set :=
| WaitingForOwnerPairing
| OwnerPairingStarted
| OwnerPairingCompleted
| OwnerSwapInitiated
| OldOwnerDisconnected
| OwnerSwapCompleted
| BondDeletedStillConnected
| NewOwnerDisconnectedBondStillExists
| OwnerSwapSuccess.

Inductive Event : Set :=
| EvPairingStarted
| EvPairingCompleted
| EvOldOwnerDisconnected
| EvBondDeletion
| EvBondDeletionFailed
| EvNewOwnerDisconnected.

Definition state_code (s : State) : Z :=
  match s with
  | WaitingForOwnerPairing => STATE_WAITING_FOR_OWNER_PAIRING
  | OwnerPairingStarted => STATE_OWNER_PAIRING_STARTED
  | OwnerPairingCompleted => STATE_OWNER_PAIRING_COMPLETED
  | OwnerSwapInitiated => STATE_OWNER_SWAP_INITIATED
  | OldOwnerDisconnected => STATE_OLD_OWNER_DISCONNECTED
  | OwnerSwapCompleted => STATE_OWNER_SWAP_COMPLETED
  | BondDeletedStillConnected => STATE_BOND_DELETED_STILL_CONNECTED
  | NewOwnerDisconnectedBondStillExists =>
      STATE_NEW_OWNER_DISCONNECTED_BOND_STILL_EXIST
  | OwnerSwapSuccess => STATE_OWNER_SWAP_SUCCESS
  end.

Definition event_code (e : Event) : Z :=
  match e with
  | EvPairingStarted => EVENT_OWNER_PAIRING_STARTED
  | EvPairingCompleted => EVENT_OWNER_PAIRING_COMPLETED
  | EvOldOwnerDisconnected => EVENT_OLD_OWNER_DISCONNECTED
  | EvBondDeletion => EVENT_BOND_DELETION
  | EvBondDeletionFailed => EVENT_BOND_DELETION_FAILED
  | EvNewOwnerDisconnected => EVENT_NEW_OWNER_DISCONNECTED
  end.

Definition all_states : list State :=
  [WaitingForOwnerPairing; OwnerPairingStarted; OwnerPairingCompleted;
   OwnerSwapInitiated; OldOwnerDisconnected; OwnerSwapCompleted;
   BondDeletedStillConnected; NewOwnerDisconnectedBondStillExists;
   OwnerSwapSuccess].

Definition all_events : list Event :=
  [EvPairingStarted; EvPairingCompleted; EvOldOwnerDisconnected;
   EvBondDeletion; EvBondDeletionFailed; EvNewOwnerDisconnected].

(** ** The transition function (source lines 35-100) *)

(** [f"{current_state}"] for an [int]: its decimal numeral.  CPython (3.11
    and later) converts an integer to text only up to
    [sys.get_int_max_str_digits()] digits, 4300 unless set otherwise, and
    raises [ValueError] beyond; [str_of_int] is the conversion within this
    limit.  The limit is met only by a call of the transition function
    with a state that is none of the nine constants. *)
Definition INT_MAX_STR_DIGITS : Z := 4300.

Definition str_of_int (z : Z) : string :=
  NilZero.string_of_int (Z.to_int z).

Definition owner_swap_state_machine (events current_state : Z) : Z * string :=
  if (current_state =? STATE_WAITING_FOR_OWNER_PAIRING)%Z then
    if (events =? EVENT_OWNER_PAIRING_STARTED)%Z then
      (STATE_OWNER_PAIRING_STARTED, "OK")
    else
      (current_state, "Owner Pairing was not started")
  else if (current_state =? STATE_OWNER_PAIRING_STARTED)%Z then
    if (events =? EVENT_OWNER_PAIRING_COMPLETED)%Z then
      (STATE_OWNER_PAIRING_COMPLETED, "OK")
    else
      (current_state, "Owner Pairing was not completed")
  else if (current_state =? STATE_OWNER_PAIRING_COMPLETED)%Z then
    if (events =? EVENT_OWNER_PAIRING_STARTED)%Z then
      (STATE_OWNER_SWAP_INITIATED, "OK")
    else
      (current_state, "Owner Swap was not initiated")
  else if (current_state =? STATE_OWNER_SWAP_INITIATED)%Z then
    if (events =? EVENT_OLD_OWNER_DISCONNECTED)%Z then
      (STATE_OLD_OWNER_DISCONNECTED, "OK")
    else
      (current_state, "Old Owner did not disconnect")
  else if (current_state =? STATE_OLD_OWNER_DISCONNECTED)%Z then
    if (events =? EVENT_OWNER_PAIRING_COMPLETED)%Z then
      (STATE_OWNER_SWAP_COMPLETED, "OK")
    else
      (current_state, "Owner Swap was not completed")
  else if (current_state =? STATE_OWNER_SWAP_COMPLETED)%Z then
    if (events =? EVENT_BOND_DELETION)%Z then
      (STATE_BOND_DELETED_STILL_CONNECTED, "OK")
    else if (events =? EVENT_BOND_DELETION_FAILED)%Z then
      (current_state, "Bond Deletion failed")
    else if (events =? EVENT_NEW_OWNER_DISCONNECTED)%Z then
      (STATE_NEW_OWNER_DISCONNECTED_BOND_STILL_EXIST, "OK")
    else
      (current_state, "Bond Deletion did not occur before disconnecting")
  else if (current_state =? STATE_BOND_DELETED_STILL_CONNECTED)%Z then
    if (events =? EVENT_NEW_OWNER_DISCONNECTED)%Z then
      (STATE_OWNER_SWAP_SUCCESS, "OK")
    else if (events =? EVENT_OLD_OWNER_DISCONNECTED)%Z then
      (current_state, "OK")
    else
      (current_state, "New Owner did not disconnect")
  else if (current_state =? STATE_NEW_OWNER_DISCONNECTED_BOND_STILL_EXIST)%Z then
    if (events =? EVENT_BOND_DELETION)%Z then
      (STATE_OWNER_SWAP_SUCCESS, "OK")
    else if (events =? EVENT_BOND_DELETION_FAILED)%Z then
      (current_state, "Bond Deletion failed")
    else if (events =? EVENT_OLD_OWNER_DISCONNECTED)%Z then
      (current_state, "OK")
    else
      (current_state, "Bond Deletion did no occur after disconnecting")
  else if (current_state =? STATE_OWNER_SWAP_SUCCESS)%Z then
    (current_state, "OK")
  else
    (current_state, "Unknown state: " ++ str_of_int current_state).

(** ** Event extraction (source lines 116-129) *)

(** [re.search(pattern, line)] for a literal pattern. *)
Definition re_search (pattern line : string) : bool :=
  match index 0 pattern line with
  | Some _ => true
  | None => false
  end.

Definition PAT_PAIRING_STARTED : string := "Owner Pairing Started".
Definition PAT_PAIRING_COMPLETE : string := "Owner Pairing Complete!".
Definition PAT_LINK0_TERMINATED : string :=
  "Link Terminated Received, link 0x00".
Definition PAT_BOND_DELETION_OK : string :=
  "BLE Cloud Event: Bond Deletion - Deletion Type: 02 | Status: 00".
Definition PAT_BOND_DELETION_ANY : string :=
  "BLE Cloud Event: Bond Deletion - Deletion Type: 02 | Status:".
Definition PAT_LINK1_TERMINATED : string :=
  "Link Terminated Received, link 0x01".

(** The [if]/[elif] chain of the loop body: the event the taken branch hands
    to the state machine, or [None] for the final [else]
    ([match_found = False]). *)
Definition extract_event (line : string) : option Z :=
  if re_search PAT_PAIRING_STARTED line then
    Some EVENT_OWNER_PAIRING_STARTED
  else if re_search PAT_PAIRING_COMPLETE line then
    Some EVENT_OWNER_PAIRING_COMPLETED
  else if re_search PAT_LINK0_TERMINATED line then
    Some EVENT_OLD_OWNER_DISCONNECTED
  else if re_search PAT_BOND_DELETION_OK line then
    Some EVENT_BOND_DELETION
  else if re_search PAT_BOND_DELETION_ANY line then
    Some EVENT_BOND_DELETION_FAILED
  else if re_search PAT_LINK1_TERMINATED line then
    Some EVENT_NEW_OWNER_DISCONNECTED
  else
    None.

(** One pass through the first half of the loop body: the new
    [(owner_swap_state, result)] and the flag [match_found]. *)
Definition match_line (line : string) (owner_swap_state : Z) (result : string)
  : (Z * string) * bool :=
  match extract_event line with
  | Some ev => (owner_swap_state_machine ev owner_swap_state, true)
  | None => ((owner_swap_state, result), false)
  end.

(** ** Exceptions, files and the scanning loop (source lines 106-136) *)

Inductive exc (A : Type) : Type :=
| Ok (a : A)
| Raised (e : string).
Arguments Ok {A} a.
Arguments Raised {A} e.

Definition bind {A B : Type} (c : exc A) (k : A -> exc B) : exc B :=
  match c with
  | Ok a => k a
  | Raised e => Raised e
  end.

Notation "x <- c ;; k" := (bind c (fun x => k))
  (at level 61, c at next level, right associativity).

(** What the file iterator does when asked for the next line. *)
Inductive read_event : Type :=
| ReadLine (line : string)
| ReadRaise (e : string).

(** A file that reads without error. *)
Definition text_lines (lines : list string) : list read_event :=
  map ReadLine lines.

(** [for line in file: ...] with its [break] and [continue]. *)
Fixpoint scan_lines (file : list read_event) (owner_swap_state : Z)
  (result : string) : exc (Z * string) :=
  match file with
  | [] => Ok (owner_swap_state, result)
  | ReadRaise e :: _ => Raised e
  | ReadLine line :: rest =>
      let '((owner_swap_state', result'), match_found) :=
        match_line line owner_swap_state result in
      if match_found then
        if negb (result' =? "OK") then
          Ok (owner_swap_state', result')
        else
          scan_lines rest owner_swap_state' result'
      else
        scan_lines rest owner_swap_state' result'
  end.

(** The file system: [open(file_path)] raises or gives the file iterator. *)
Definition filesystem : Type := string -> exc (list read_event).

(** The part of the [try] block before the report is written. *)
Definition scan_file (fs : filesystem) (file_path : string)
  : exc (Z * string) :=
  file <- fs file_path ;;
  scan_lines file STATE_WAITING_FOR_OWNER_PAIRING "OK".

(** ** The report (source lines 138-150, 154-178) *)

Inductive cell : Type :=
| CStr (s : string)
| CInt (z : Z).

Definition row : Type := list cell.

Fixpoint has_sep (p : string) : bool :=
  match p with
  | EmptyString => false
  | String c rest => Ascii.eqb c "/" || has_sep rest
  end.

(** [os.path.basename] on POSIX: the text after the last ["/"]. *)
Fixpoint basename (p : string) : string :=
  match p with
  | EmptyString => EmptyString
  | String c rest =>
      if has_sep rest then basename rest
      else if Ascii.eqb c "/" then rest
      else p
  end.

(** The row written for a file, by the [try] body or by the handler. *)
Definition verdict_row (file_name : string) (outcome : exc (Z * string))
  : row :=
  match outcome with
  | Ok (owner_swap_state, result) =>
      if negb (owner_swap_state =? STATE_OWNER_SWAP_SUCCESS)%Z
         || negb (result =? "OK")
      then [CStr file_name; CStr "FAILED"; CInt owner_swap_state; CStr result]
      else [CStr file_name; CStr "PASSED"; CInt owner_swap_state; CStr result]
  | Raised e =>
      [CStr file_name; CStr "FAILED"; CStr "EXCEPTION"; CStr e]
  end.

(** [analyze_log_file] in a run in which the write to the report succeeds:
    the report after the call.  The call with its failing writes is
    [Fallible.analyze_log_file] below. *)
Definition analyze_log_file (fs : filesystem) (file_path : string)
  (report : list row) : list row :=
  report ++ [verdict_row (basename file_path) (scan_file fs file_path)].

Definition REPORT_HEADER : row :=
  [CStr "file"; CStr "status"; CStr "final_state"; CStr "result"].

(** [main] after file discovery, in a run in which no write fails: [None]
    when there is nothing to analyze (no report is written), else the
    report.  The run with its failures and its console output is
    [Fallible.main] below. *)
Definition main (fs : filesystem) (log_files : list string)
  : option (list row) :=
  match log_files with
  | [] => None
  | _ =>
      Some (fold_left (fun report log_file =>
                         analyze_log_file fs log_file report)
                      log_files [REPORT_HEADER])
  end.

(** The status, final state and diagnostic columns of a row. *)
Definition row_status (r : row) : option cell := nth_error r 1.
Definition row_final_state (r : row) : option cell := nth_error r 2.
Definition row_result (r : row) : option cell := nth_error r 3.

(** ** The specification's view, for comparison with the code *)

(** The extractor as the specification words it: an ordered list of
    patterns, the first match wins. *)
Definition SPEC_PATTERNS : list (string * Event) :=
  [(PAT_PAIRING_STARTED, EvPairingStarted);
   (PAT_PAIRING_COMPLETE, EvPairingCompleted);
   (PAT_LINK0_TERMINATED, EvOldOwnerDisconnected);
   (PAT_BOND_DELETION_OK, EvBondDeletion);
   (PAT_BOND_DELETION_ANY, EvBondDeletionFailed);
   (PAT_LINK1_TERMINATED, EvNewOwnerDisconnected)].

Fixpoint spec_first_match (patterns : list (string * Event)) (line : string)
  : option Event :=
  match patterns with
  | [] => None
  | (pattern, ev) :: later =>
      if re_search pattern line then Some ev
      else spec_first_match later line
  end.

(** The legal transitions of the specification's table (section 4.2):
    the entries of its column "Event -> Next". *)
Definition spec_listed (s : State) (e : Event) : bool :=
  match s, e with
  | WaitingForOwnerPairing, EvPairingStarted => true
  | OwnerPairingStarted, EvPairingCompleted => true
  | OwnerPairingCompleted, EvPairingStarted => true
  | OwnerSwapInitiated, EvOldOwnerDisconnected => true
  | OldOwnerDisconnected, EvPairingCompleted => true
  | OwnerSwapCompleted, EvBondDeletion => true
  | OwnerSwapCompleted, EvBondDeletionFailed => true
  | OwnerSwapCompleted, EvNewOwnerDisconnected => true
  | BondDeletedStillConnected, EvNewOwnerDisconnected => true
  | BondDeletedStillConnected, EvOldOwnerDisconnected => true
  | NewOwnerDisconnectedBondStillExists, EvBondDeletion => true
  | NewOwnerDisconnectedBondStillExists, EvBondDeletionFailed => true
  | NewOwnerDisconnectedBondStillExists, EvOldOwnerDisconnected => true
  | OwnerSwapSuccess, _ => true
  | _, _ => false
  end.

(** The events of a stream of lines, in order. *)
Fixpoint extracted_events (lines : list string) : list Z :=
  match lines with
  | [] => []
  | line :: rest =>
      match extract_event line with
      | Some ev => ev :: extracted_events rest
      | None => extracted_events rest
      end
  end.

(** The row of one file, a function of that file alone. *)
Definition file_row (fs : filesystem) (file_path : string) : row :=
  verdict_row (basename file_path) (scan_file fs file_path).

(** The loop seen from the events alone: what [scan_lines] does on a file
    that reads without error (lemma [scan_lines_events]). *)
Fixpoint run_events (evs : list Z) (owner_swap_state : Z) (result : string)
  : Z * string :=
  match evs with
  | [] => (owner_swap_state, result)
  | ev :: rest =>
      let '(owner_swap_state', result') :=
        owner_swap_state_machine ev owner_swap_state in
      if negb (result' =? "OK") then (owner_swap_state', result')
      else run_events rest owner_swap_state' result'
  end.

(** ** File discovery (source lines 26-32) *)

(** [s.startswith(t)] and [s.endswith(t)]. *)
Definition startswith (s t : string) : bool := prefix t s.

Fixpoint endswith (s suffix : string) : bool :=
  (s =? suffix)
  || match s with
     | EmptyString => false
     | String _ rest => endswith rest suffix
     end.

(** [os.path.join(a, b)] on POSIX, for one component [b]. *)
Definition os_path_join (a b : string) : string :=
  if startswith b "/" then b
  else if (a =? "") || endswith a "/" then a ++ b
  else a ++ "/" ++ b.

(** A directory as [os.walk] sees it: the sub-directories and the other
    entries that [scandir] lists, in its order; or a directory that is not
    walked (it cannot be listed, or it is a symbolic link met below the
    top: [onerror] and [followlinks] have their defaults). *)
#[warnings="-register-all"]
Inductive fs_dir : Type :=
| Listing (dirs : list (string * fs_dir)) (files : list string)
| NotWalked.

(** [os.walk(top)], top-down: each walked directory with the names of its
    sub-directories and of its files, parents before children. *)
Fixpoint walk (top : string) (d : fs_dir) {struct d}
  : list (string * list string * list string) :=
  match d with
  | NotWalked => []
  | Listing dirs files =>
      (top, map fst dirs, files)
      :: flat_map (fun entry : string * fs_dir =>
                     let (name, sub) := entry in
                     walk (os_path_join top name) sub)
           dirs
  end.

Definition find_log_files (directory : string) (tree : fs_dir)
  : list string :=
  flat_map (fun '(root, dirs, files) =>
              map (os_path_join root)
                (filter (fun file => endswith file ".log") files))
    (walk directory tree).

(** [listed_in top d root file]: walking [d] from [top] comes to a
    directory with path [root] in which [file] is listed as a file. *)
Inductive listed_in : string -> fs_dir -> string -> string -> Prop :=
| listed_here (top : string) (dirs : list (string * fs_dir))
    (files : list string) (file : string) :
    In file files -> listed_in top (Listing dirs files) top file
| listed_below (top : string) (dirs : list (string * fs_dir))
    (files : list string) (name : string) (sub : fs_dir)
    (root file : string) :
    In (name, sub) dirs ->
    listed_in (os_path_join top name) sub root file ->
    listed_in top (Listing dirs files) root file.

(** The texts the transition function can answer in a known state. *)
Definition DIAGNOSTICS : list string :=
  ["OK";
   "Owner Pairing was not started";
   "Owner Pairing was not completed";
   "Owner Swap was not initiated";
   "Old Owner did not disconnect";
   "Owner Swap was not completed";
   "Bond Deletion failed";
   "Bond Deletion did not occur before disconnecting";
   "New Owner did not disconnect";
   "Bond Deletion did no occur after disconnecting"].

(** The refusals of the transition function: the state in which an event
    is refused and the diagnostic it answers (source lines 42-94). *)
Definition REFUSALS : list (Z * string) :=
  [(STATE_WAITING_FOR_OWNER_PAIRING, "Owner Pairing was not started");
   (STATE_OWNER_PAIRING_STARTED, "Owner Pairing was not completed");
   (STATE_OWNER_PAIRING_COMPLETED, "Owner Swap was not initiated");
   (STATE_OWNER_SWAP_INITIATED, "Old Owner did not disconnect");
   (STATE_OLD_OWNER_DISCONNECTED, "Owner Swap was not completed");
   (STATE_OWNER_SWAP_COMPLETED, "Bond Deletion failed");
   (STATE_OWNER_SWAP_COMPLETED,
    "Bond Deletion did not occur before disconnecting");
   (STATE_BOND_DELETED_STILL_CONNECTED, "New Owner did not disconnect");
   (STATE_NEW_OWNER_DISCONNECTED_BOND_STILL_EXIST, "Bond Deletion failed");
   (STATE_NEW_OWNER_DISCONNECTED_BOND_STILL_EXIST,
    "Bond Deletion did no occur after disconnecting")].

(** ** The run with its failures (source lines 106-178) *)

(** Every write to the report opens the file and hands one row to
    [writerow]; either step can raise (the destination is not writable, a
    cell cannot be encoded as UTF-8, the disk is full), and so can [print]
    and [os.remove].  None of these calls is protected in the source, but
    for the write in the [try] block of [analyze_log_file].  The state of
    the run is the console output and the report file; an exception leaves
    the state as it was when it was raised. *)
Module Fallible.

Inductive write_failure : Type :=
| OpenFails (e : string)
| WriteFails (e : string).

(** What the surroundings decide. *)
Record environment : Type := {
  cwd : string;
  tree : fs_dir;
  open_file : filesystem;
  write_error : list row -> row -> option write_failure;
  print_error : string -> option string;
  remove_error : option string
}.

Record world : Type := {
  console : list string;
  report_file : option (list row)
}.

Definition current_rows (w : world) : list row :=
  match report_file w with
  | Some rows => rows
  | None => []
  end.

Definition io (A : Type) : Type := world -> exc A * world.

Definition ret {A : Type} (a : A) : io A := fun w => (Ok a, w).

Definition lift {A : Type} (c : exc A) : io A := fun w => (c, w).

Definition bind {A B : Type} (c : io A) (k : A -> io B) : io B :=
  fun w =>
    match c w with
    | (Ok a, w') => k a w'
    | (Raised e, w') => (Raised e, w')
    end.

Definition try_except {A : Type} (c : io A) (handler : string -> io A)
  : io A :=
  fun w =>
    match c w with
    | (Ok a, w') => (Ok a, w')
    | (Raised e, w') => handler e w'
    end.

Notation "c1 ;;; c2" := (bind c1 (fun _ => c2))
  (at level 61, right associativity).

Definition print (env : environment) (text : string) : io unit :=
  fun w =>
    match print_error env text with
    | Some e => (Raised e, w)
    | None =>
        (Ok tt,
         {| console := (console w ++ [text])%list;
            report_file := report_file w |})
    end.

(** [with open(report_file_path, 'a', ...) as report_file:
    csv.writer(report_file).writerow(r)]. *)
Definition append_row (env : environment) (r : row) : io unit :=
  fun w =>
    match write_error env (current_rows w) r with
    | Some (OpenFails e) => (Raised e, w)
    | Some (WriteFails e) =>
        (Raised e,
         {| console := console w; report_file := Some (current_rows w) |})
    | None =>
        (Ok tt,
         {| console := console w;
            report_file := Some (current_rows w ++ [r])%list |})
    end.

(** [if os.path.exists(report_file_path): os.remove(report_file_path)]. *)
Definition remove_report (env : environment) : io unit :=
  fun w =>
    match report_file w with
    | None => (Ok tt, w)
    | Some _ =>
        match remove_error env with
        | Some e => (Raised e, w)
        | None => (Ok tt, {| console := console w; report_file := None |})
        end
    end.

(** The header, written with mode ['w'] (source lines 168-170). *)
Definition write_header (env : environment) : io unit :=
  fun w =>
    match write_error env [] REPORT_HEADER with
    | Some (OpenFails e) => (Raised e, w)
    | Some (WriteFails e) =>
        (Raised e, {| console := console w; report_file := Some [] |})
    | None =>
        (Ok tt,
         {| console := console w; report_file := Some [REPORT_HEADER] |})
    end.

(** Source lines 106-150: the scan and the write of its row in the [try]
    block, the write of the exception row in the handler. *)
Definition analyze_log_file (env : environment) (file_path : string)
  : io unit :=
  try_except
    (bind (lift (scan_file (open_file env) file_path))
       (fun outcome =>
          append_row env (verdict_row (basename file_path) (Ok outcome))))
    (fun e => append_row env (verdict_row (basename file_path) (Raised e))).

(** [f"Analyzing {i}/{len(log_files)}: {os.path.basename(log_file)}"]. *)
Definition analyzing_message (i n : nat) (log_file : string) : string :=
  "Analyzing " ++ str_of_int (Z.of_nat i) ++ "/" ++ str_of_int (Z.of_nat n)
  ++ ": " ++ basename log_file.

(** The loop of [main] (source lines 173-175), from index [i]. *)
Fixpoint analyze_each (env : environment) (i n : nat)
  (log_files : list string) : io unit :=
  match log_files with
  | [] => ret tt
  | log_file :: rest =>
      print env (analyzing_message i n log_file) ;;;
      analyze_log_file env log_file ;;;
      analyze_each env (S i) n rest
  end.


Definition NO_LOG_FILES : string :=
  "No log files found in the current directory and its subdirectories.".

Definition COMPLETE : string :=
  String "010"
    "Owner Swap Analysis Complete. Check analysis_report.csv for results.".

Definition main (env : environment) : io unit :=
  match find_log_files (cwd env) (tree env) with
  | [] => print env NO_LOG_FILES
  | log_files =>
      remove_report env ;;;
      write_header env ;;;
      analyze_each env 1 (length log_files) log_files ;;;
      print env COMPLETE
  end.

End Fallible.

(** A row for the file [log_file]: its base name, a status, a final state
    and a text. *)
Definition row_of_file (log_file : string) (r : row) : Prop :=
  exists (status : string) (final_state : cell) (result : string),
    r = [CStr (basename log_file); CStr status; final_state; CStr result]
    /\ (status = "PASSED" \/ status = "FAILED").

(** ** Concrete runs *)

Definition SCENARIO_A : list string :=
  ["boot"; "12:00:01 Owner Pairing Started";
   "12:00:05 Owner Pairing Complete!"; "noise";
   "12:01:00 Owner Pairing Started";
   "12:01:02 Link Terminated Received, link 0x00";
   "12:01:09 Owner Pairing Complete!";
   "BLE Cloud Event: Bond Deletion - Deletion Type: 02 | Status: 00";
   "12:01:30 Link Terminated Received, link 0x01"; "shutdown"].

(** A batch for the exception path: the second file breaks off with an
    I/O error after two lines, the others read to their end. *)
Definition BATCH_FS : filesystem :=
  fun file_path =>
    if file_path =? "/logs/b.log" then
      Ok (text_lines ["boot"; "Owner Pairing Started"]
          ++ [ReadRaise "[Errno 5] Input/output error"])%list
    else if file_path =? "/logs/c.log" then
      Ok (text_lines ["Owner Pairing Complete!"])
    else if file_path =? "/logs/d.log" then
      Raised "[Errno 13] Permission denied: '/logs/d.log'"
    else
      Ok (text_lines SCENARIO_A).

(** A working directory with logs at two levels, a symbolic link and files
    that are not logs. *)
Definition SAMPLE_TREE : fs_dir :=
  Listing
    [("run1", Listing [("raw", Listing [] ["dump.bin"; "radio.log"])]
                ["device.log"; "notes.txt"]);
     ("latest", NotWalked);
     ("run2", Listing [] ["device.log"; "device.LOG"; ".log"])]
    ["analysis_report.csv"; "top.log"].

(** The batch above in a working directory, with no failing write. *)
Definition BATCH_ENV : Fallible.environment :=
  {| Fallible.cwd := "/logs";
     Fallible.tree := Listing [] ["a.log"; "b.log"; "c.log"; "d.log"];
     Fallible.open_file := BATCH_FS;
     Fallible.write_error := fun _ _ => None;
     Fallible.print_error := fun _ => None;
     Fallible.remove_error := None |}.






Example sample_tree_found :
  find_log_files "/home/qa/logs" SAMPLE_TREE
  = ["/home/qa/logs/top.log"; "/home/qa/logs/run1/device.log";
     "/home/qa/logs/run1/raw/radio.log"; "/home/qa/logs/run2/device.log";
     "/home/qa/logs/run2/.log"].
Proof. reflexivity. Qed.

Example os_path_join_cases :
  os_path_join "/logs" "a.log" = "/logs/a.log"
  /\ os_path_join "/" "a.log" = "/a.log"
  /\ os_path_join "" "a.log" = "a.log"
  /\ os_path_join "/logs" "/abs" = "/abs".
Proof. repeat split. Qed.

Example scenario_a_events :
  extracted_events SCENARIO_A = [0; 1; 0; 2; 1; 3; 5]%Z.
Proof. reflexivity. Qed.

Example scenario_a_scan :
  scan_lines (text_lines SCENARIO_A) 0 "OK" = Ok (8%Z, "OK").
Proof. reflexivity. Qed.

Example unknown_state_text :
  owner_swap_state_machine 0 (-12) = ((-12)%Z, "Unknown state: -12").
Proof. reflexivity. Qed.

Example basename_posix :
  basename "/var/log/run1/device.log" = "device.log"
  /\ basename "device.log" = "device.log" /\ basename "logs/" = "".
Proof. repeat split. Qed.

(** ** The transition function *)

Ltac fsm_cases :=
  unfold owner_swap_state_machine;
  repeat match goal with
         | |- context [(?a =? ?b)%Z] =>
             destruct (Z.eqb_spec a b); cbv iota
         end.

Lemma success_absorbs (ev : Z) :
  owner_swap_state_machine ev STATE_OWNER_SWAP_SUCCESS
  = (STATE_OWNER_SWAP_SUCCESS, "OK").
Proof. reflexivity. Qed.

(** A diagnostic other than ["OK"] never comes with a change of state. *)
Lemma failure_keeps_state (ev st : Z) :
  snd (owner_swap_state_machine ev st) <> "OK" ->
  fst (owner_swap_state_machine ev st) = st.
Proof.
  fsm_cases; simpl; intros H; try reflexivity; exfalso; apply H; reflexivity.
Qed.

(** Whatever the integers given, a result in the success state carries
    ["OK"]. *)
Lemma success_result_ok (ev st : Z) :
  fst (owner_swap_state_machine ev st) = STATE_OWNER_SWAP_SUCCESS ->
  snd (owner_swap_state_machine ev st) = "OK".
Proof.
  fsm_cases; simpl; intros H; try reflexivity; subst; try discriminate;
    congruence.
Qed.

(** Name the state a closed call of the transition function returns. *)
Ltac pick_state :=
  let try_state s := (exists s; eexists; split; [reflexivity|]) in
  first
    [ try_state WaitingForOwnerPairing
    | try_state OwnerPairingStarted
    | try_state OwnerPairingCompleted
    | try_state OwnerSwapInitiated
    | try_state OldOwnerDisconnected
    | try_state OwnerSwapCompleted
    | try_state BondDeletedStillConnected
    | try_state NewOwnerDisconnectedBondStillExists
    | try_state OwnerSwapSuccess ].

Lemma state_code_inj (s s' : State) : state_code s = state_code s' -> s = s'.
Proof. destruct s, s'; simpl; intros H; try reflexivity; discriminate H. Qed.

Lemma state_code_range (s : State) : (0 <= state_code s <= 8)%Z.
Proof. destruct s; cbv; split; discriminate. Qed.

Lemma event_code_range (e : Event) : (0 <= event_code e <= 5)%Z.
Proof. destruct e; cbv; split; discriminate. Qed.

Lemma all_states_complete (s : State) : In s all_states.
Proof. destruct s; simpl; tauto. Qed.

Lemma all_events_complete (e : Event) : In e all_events.
Proof. destruct e; simpl; tauto. Qed.

(** ** The event extractor *)

Lemma match_line_event (line : string) (ev st : Z) (r : string) :
  extract_event line = Some ev ->
  match_line line st r = (owner_swap_state_machine ev st, true).
Proof. intros H. unfold match_line. rewrite H. reflexivity. Qed.

Lemma match_line_no_event (line : string) (st : Z) (r : string) :
  extract_event line = None -> match_line line st r = ((st, r), false).
Proof. intros H. unfold match_line. rewrite H. reflexivity. Qed.

(** The code's chain is the first-match search through the ordered list. *)
Lemma extract_event_first_match (line : string) :
  extract_event line
  = option_map event_code (spec_first_match SPEC_PATTERNS line).
Proof.
  unfold extract_event, SPEC_PATTERNS, spec_first_match.
  repeat match goal with
         | |- context [re_search ?p line] => destruct (re_search p line)
         end; reflexivity.
Qed.

(** ** The scanning loop *)

Lemma scan_lines_skip (line : string) (rest : list read_event) (st : Z)
  (r : string) :
  extract_event line = None ->
  scan_lines (ReadLine line :: rest) st r = scan_lines rest st r.
Proof. intros H. simpl. rewrite (match_line_no_event _ _ _ H). reflexivity. Qed.

Lemma scan_lines_stop (line : string) (rest : list read_event) (ev st : Z)
  (r : string) :
  extract_event line = Some ev ->
  snd (owner_swap_state_machine ev st) <> "OK" ->
  scan_lines (ReadLine line :: rest) st r
  = Ok (owner_swap_state_machine ev st).
Proof.
  intros H Hd. simpl. rewrite (match_line_event _ _ _ _ H).
  destruct (owner_swap_state_machine ev st) as [st' r']. simpl in *.
  destruct (String.eqb_spec r' "OK"); [contradiction | reflexivity].
Qed.

Lemma scan_lines_step (line : string) (rest : list read_event) (ev st : Z)
  (r : string) :
  extract_event line = Some ev ->
  snd (owner_swap_state_machine ev st) = "OK" ->
  scan_lines (ReadLine line :: rest) st r
  = scan_lines rest (fst (owner_swap_state_machine ev st)) "OK".
Proof.
  intros H Hd. simpl. rewrite (match_line_event _ _ _ _ H).
  destruct (owner_swap_state_machine ev st) as [st' r']. simpl in *.
  subst r'. reflexivity.
Qed.

(** Lines that give no event are invisible to the loop. *)
Lemma scan_lines_skip_all (pre : list string) (rest : list read_event)
  (st : Z) (r : string) :
  (forall l, In l pre -> extract_event l = None) ->
  scan_lines (text_lines pre ++ rest) st r = scan_lines rest st r.
Proof.
  induction pre as [|l pre IH]; intros Hpre; [reflexivity|].
  change (text_lines (l :: pre) ++ rest)%list
    with (ReadLine l :: (text_lines pre ++ rest)%list).
  rewrite scan_lines_skip by (apply Hpre; left; reflexivity).
  apply IH. intros l' Hl'. apply Hpre. right. exact Hl'.
Qed.

(** A prefix that ends with diagnostic ["OK"] has not stopped the loop, so
    scanning goes on with what follows. *)
Lemma scan_lines_app (pre : list string) (rest : list read_event) :
  forall (st : Z) (r : string) (st' : Z),
    scan_lines (text_lines pre) st r = Ok (st', "OK") ->
    scan_lines (text_lines pre ++ rest) st r = scan_lines rest st' "OK".
Proof.
  induction pre as [|l pre IH]; intros st r st' H.
  - simpl in H. injection H as -> ->. reflexivity.
  - change (text_lines (l :: pre) ++ rest)%list
      with (ReadLine l :: (text_lines pre ++ rest)%list).
    change (text_lines (l :: pre)) with (ReadLine l :: text_lines pre) in H.
    simpl in *.
    destruct (match_line l st r) as [[st1 r1] [|]].
    + destruct (String.eqb_spec r1 "OK") as [Heq|Hne]; simpl in *.
      * apply IH with (r := r1). exact H.
      * injection H as _ Hr. contradiction.
    + apply IH with (r := r1). exact H.
Qed.

(** On a file that reads without error the loop is [run_events] on the
    extracted events; in particular it returns. *)
Lemma scan_lines_events (lines : list string) :
  forall (st : Z) (r : string),
    scan_lines (text_lines lines) st r
    = Ok (run_events (extracted_events lines) st r).
Proof.
  induction lines as [|l lines IH]; intros st r; [reflexivity|].
  change (text_lines (l :: lines)) with (ReadLine l :: text_lines lines).
  simpl. unfold match_line.
  destruct (extract_event l) as [ev|]; simpl.
  - destruct (owner_swap_state_machine ev st) as [st1 r1].
    destruct (negb (r1 =? "OK")); [reflexivity | apply IH].
  - apply IH.
Qed.

(** The loop invariant behind the verdict: in the success state the
    diagnostic is ["OK"]. *)
Lemma scan_lines_success_ok (file : list read_event) :
  forall (st : Z) (r : string) (st' : Z) (r' : string),
    (st = STATE_OWNER_SWAP_SUCCESS -> r = "OK") ->
    scan_lines file st r = Ok (st', r') ->
    st' = STATE_OWNER_SWAP_SUCCESS -> r' = "OK".
Proof.
  induction file as [|[l|e] file IH]; intros st r st' r' Hinv H Hst'.
  - simpl in H. injection H as <- <-. auto.
  - simpl in H. unfold match_line in H.
    destruct (extract_event l) as [ev|].
    + pose proof (success_result_ok ev st) as Hok.
      destruct (owner_swap_state_machine ev st) as [st1 r1]. simpl in Hok.
      destruct (negb (r1 =? "OK")).
      * injection H as <- <-. auto.
      * eapply IH; [| exact H | exact Hst']. exact Hok.
    + eapply IH; [| exact H | exact Hst']. exact Hinv.
  - discriminate H.
Qed.

(** ** The report *)

Lemma analyze_log_file_row (fs : filesystem) (file_path : string)
  (report : list row) :
  analyze_log_file fs file_path report
  = (report ++ [file_row fs file_path])%list.
Proof. reflexivity. Qed.



Lemma file_row_scanned (fs : filesystem) (file_path : string)
  (file : list read_event) :
  fs file_path = Ok file ->
  file_row fs file_path
  = verdict_row (basename file_path)
      (scan_lines file STATE_WAITING_FOR_OWNER_PAIRING "OK").
Proof. intros H. unfold file_row, scan_file. rewrite H. reflexivity. Qed.

Lemma verdict_row_failed (name : string) (st : Z) (d : string) :
  d <> "OK" ->
  verdict_row name (Ok (st, d))
  = [CStr name; CStr "FAILED"; CInt st; CStr d].
Proof.
  intros H. simpl. destruct (String.eqb_spec d "OK"); [contradiction|].
  rewrite orb_true_r. reflexivity.
Qed.

(** ** Verdicts *)

(** C1.  For a file that reads as the lines [lines], the analyzer appends
    one row carrying the final state and diagnostic of the scan; its status
    is ["PASSED"] exactly when the final state is the success state and the
    diagnostic is ["OK"], and ["FAILED"] in every other case. *)
Theorem verdict_pass_iff (fs : filesystem) (file_path : string)
  (lines : list string) (report : list row) :
  fs file_path = Ok (text_lines lines) ->
  exists (st : Z) (d status : string),
    scan_lines (text_lines lines) STATE_WAITING_FOR_OWNER_PAIRING "OK"
    = Ok (st, d)
    /\ analyze_log_file fs file_path report
       = (report
          ++ [[CStr (basename file_path); CStr status; CInt st; CStr d]])%list
    /\ (status = "PASSED" <-> st = STATE_OWNER_SWAP_SUCCESS /\ d = "OK")
    /\ (status = "FAILED" <-> ~ (st = STATE_OWNER_SWAP_SUCCESS /\ d = "OK")).
Proof.
  intros Hfs.
  rewrite analyze_log_file_row, (file_row_scanned _ _ _ Hfs).
  rewrite scan_lines_events.
  destruct (run_events _ _ _) as [st d].
  exists st, d. simpl.
  destruct (Z.eqb_spec st STATE_OWNER_SWAP_SUCCESS) as [Hs|Hs];
    destruct (String.eqb_spec d "OK") as [Hd|Hd]; simpl;
    [exists "PASSED" | exists "FAILED" ..];
    (split; [reflexivity|]); (split; [reflexivity|]);
    split; split; intros H; try discriminate H; try reflexivity;
    try (destruct H; contradiction); try tauto.
Qed.

Lemma verdict_pass_iff_witness :
  (fun _ : string => Ok (text_lines SCENARIO_A)) "/logs/run1/device.log"
  = Ok (text_lines SCENARIO_A)
  /\ exists (st : Z) (d status : string),
      scan_lines (text_lines SCENARIO_A) STATE_WAITING_FOR_OWNER_PAIRING "OK"
      = Ok (st, d)
      /\ analyze_log_file (fun _ => Ok (text_lines SCENARIO_A))
           "/logs/run1/device.log" [REPORT_HEADER]
         = ([REPORT_HEADER]
            ++ [[CStr (basename "/logs/run1/device.log"); CStr status;
                 CInt st; CStr d]])%list
      /\ (status = "PASSED" <-> st = STATE_OWNER_SWAP_SUCCESS /\ d = "OK")
      /\ (status = "FAILED"
          <-> ~ (st = STATE_OWNER_SWAP_SUCCESS /\ d = "OK")).
Proof.
  split; [reflexivity|].
  apply (verdict_pass_iff (fun _ => Ok (text_lines SCENARIO_A))
           "/logs/run1/device.log" SCENARIO_A [REPORT_HEADER]).
  reflexivity.
Defined.

(** C2.  Let the lines before line k ([pre]) be scanned with diagnostic
    ["OK"] throughout, ending in state [st], and let line k ([line]) match a
    pattern and produce [(st', d')] with [d'] different from ["OK"].  Then
    the scan of the whole file ends with [(st', d')] whatever follows line k
    (further lines or read errors), and the row written is the ["FAILED"]
    row of [(st', d')]. *)
Theorem early_stop (pre : list string) (line : string)
  (post : list read_event) (st st' : Z) (d' : string) :
  scan_lines (text_lines pre) STATE_WAITING_FOR_OWNER_PAIRING "OK"
  = Ok (st, "OK") ->
  match_line line st "OK" = ((st', d'), true) ->
  d' <> "OK" ->
  scan_lines (text_lines pre ++ ReadLine line :: post)
    STATE_WAITING_FOR_OWNER_PAIRING "OK" = Ok (st', d')
  /\ forall (fs : filesystem) (file_path : string) (report : list row),
      fs file_path = Ok (text_lines pre ++ ReadLine line :: post)%list ->
      analyze_log_file fs file_path report
      = (report
         ++ [[CStr (basename file_path); CStr "FAILED"; CInt st';
              CStr d']])%list.
Proof.
  intros Hpre Hline Hd.
  assert (Hscan :
            scan_lines (text_lines pre ++ ReadLine line :: post)
              STATE_WAITING_FOR_OWNER_PAIRING "OK" = Ok (st', d')).
  { rewrite (scan_lines_app _ _ _ _ _ Hpre). simpl. rewrite Hline.
    destruct (String.eqb_spec d' "OK"); [contradiction | reflexivity]. }
  split; [exact Hscan|].
  intros fs file_path report Hfs.
  rewrite analyze_log_file_row, (file_row_scanned _ _ _ Hfs), Hscan.
  rewrite (verdict_row_failed _ _ _ Hd). reflexivity.
Qed.

Lemma early_stop_witness :
  scan_lines
    (text_lines ["boot"; "Owner Pairing Started"; "Owner Pairing Complete!"])
    STATE_WAITING_FOR_OWNER_PAIRING "OK"
  = Ok (STATE_OWNER_PAIRING_COMPLETED, "OK")
  /\ scan_lines
       (text_lines ["boot"; "Owner Pairing Started"; "Owner Pairing Complete!"]
        ++ ReadLine "Link Terminated Received, link 0x01"
           :: [ReadLine "Owner Pairing Started"; ReadRaise "I/O error"])
       STATE_WAITING_FOR_OWNER_PAIRING "OK"
     = Ok (STATE_OWNER_PAIRING_COMPLETED, "Owner Swap was not initiated").
Proof.
  split; [reflexivity|].
  apply (early_stop
           ["boot"; "Owner Pairing Started"; "Owner Pairing Complete!"]
           "Link Terminated Received, link 0x01"
           [ReadLine "Owner Pairing Started"; ReadRaise "I/O error"]
           STATE_OWNER_PAIRING_COMPLETED STATE_OWNER_PAIRING_COMPLETED
           "Owner Swap was not initiated").
  - reflexivity.
  - reflexivity.
  - discriminate.
Defined.

(** C10.  Every transition whose resulting state is the success state
    carries diagnostic ["OK"]; hence every scan of a stream of lines returns
    a final state and diagnostic such that the success state comes with
    ["OK"], and the status of the row is ["PASSED"] exactly when the final
    state is the success state. *)
Theorem success_state_has_ok :
  (forall ev st : Z,
      fst (owner_swap_state_machine ev st) = STATE_OWNER_SWAP_SUCCESS ->
      snd (owner_swap_state_machine ev st) = "OK")
  /\ forall lines : list string,
      exists (st : Z) (d : string),
        scan_lines (text_lines lines) STATE_WAITING_FOR_OWNER_PAIRING "OK"
        = Ok (st, d)
        /\ (st = STATE_OWNER_SWAP_SUCCESS -> d = "OK")
        /\ forall name : string,
            row_status (verdict_row name (Ok (st, d))) = Some (CStr "PASSED")
            <-> st = STATE_OWNER_SWAP_SUCCESS.
Proof.
  split; [exact success_result_ok|].
  intros lines.
  destruct (scan_lines (text_lines lines) STATE_WAITING_FOR_OWNER_PAIRING "OK")
    as [[st d]|e] eqn:Hscan;
    [| rewrite scan_lines_events in Hscan; discriminate Hscan].
  exists st, d. split; [reflexivity|].
  assert (Hok : st = STATE_OWNER_SWAP_SUCCESS -> d = "OK").
  { apply (scan_lines_success_ok _ _ _ _ _ (fun _ => eq_refl) Hscan). }
  split; [exact Hok|].
  intros name. unfold row_status. simpl.
  destruct (Z.eqb_spec st STATE_OWNER_SWAP_SUCCESS) as [Hs|Hs]; simpl.
  - rewrite (Hok Hs). simpl. split; [intros _; exact Hs | reflexivity].
  - split; [discriminate | contradiction].
Qed.

Lemma success_state_has_ok_witness :
  fst (owner_swap_state_machine EVENT_BOND_DELETION
         STATE_NEW_OWNER_DISCONNECTED_BOND_STILL_EXIST)
  = STATE_OWNER_SWAP_SUCCESS
  /\ snd (owner_swap_state_machine EVENT_BOND_DELETION
            STATE_NEW_OWNER_DISCONNECTED_BOND_STILL_EXIST) = "OK".
Proof.
  split; [reflexivity|].
  apply (proj1 success_state_has_ok EVENT_BOND_DELETION
           STATE_NEW_OWNER_DISCONNECTED_BOND_STILL_EXIST).
  reflexivity.
Defined.

(** ** The transition table *)

(** C3.  In the state "new owner disconnected, bond still exists" the code
    agrees with the claim on bond deletion, failed bond deletion and the
    disconnection of the old owner.  On each of the three other events it
    keeps the state but answers
    ["Bond Deletion did no occur after disconnecting"], which is not the
    claimed ["Bond Deletion did not occur after disconnecting"]. *)
Theorem bond_still_exists_row :
  owner_swap_state_machine EVENT_BOND_DELETION
    STATE_NEW_OWNER_DISCONNECTED_BOND_STILL_EXIST
  = (STATE_OWNER_SWAP_SUCCESS, "OK")
  /\ owner_swap_state_machine EVENT_BOND_DELETION_FAILED
       STATE_NEW_OWNER_DISCONNECTED_BOND_STILL_EXIST
     = (STATE_NEW_OWNER_DISCONNECTED_BOND_STILL_EXIST, "Bond Deletion failed")
  /\ owner_swap_state_machine EVENT_OLD_OWNER_DISCONNECTED
       STATE_NEW_OWNER_DISCONNECTED_BOND_STILL_EXIST
     = (STATE_NEW_OWNER_DISCONNECTED_BOND_STILL_EXIST, "OK")
  /\ (forall e : Event,
         In e [EvPairingStarted; EvPairingCompleted; EvNewOwnerDisconnected] ->
         owner_swap_state_machine (event_code e)
           STATE_NEW_OWNER_DISCONNECTED_BOND_STILL_EXIST
         = (STATE_NEW_OWNER_DISCONNECTED_BOND_STILL_EXIST,
            "Bond Deletion did no occur after disconnecting"))
  /\ owner_swap_state_machine EVENT_OWNER_PAIRING_STARTED
       STATE_NEW_OWNER_DISCONNECTED_BOND_STILL_EXIST
     <> (STATE_NEW_OWNER_DISCONNECTED_BOND_STILL_EXIST,
         "Bond Deletion did not occur after disconnecting").
Proof.
  repeat split.
  - intros e He. simpl in He.
    destruct He as [<-|[<-|[<-|[]]]]; reflexivity.
  - discriminate.
Qed.

Lemma bond_still_exists_row_witness :
  In EvNewOwnerDisconnected
    [EvPairingStarted; EvPairingCompleted; EvNewOwnerDisconnected]
  /\ owner_swap_state_machine (event_code EvNewOwnerDisconnected)
       STATE_NEW_OWNER_DISCONNECTED_BOND_STILL_EXIST
     = (STATE_NEW_OWNER_DISCONNECTED_BOND_STILL_EXIST,
        "Bond Deletion did no occur after disconnecting").
Proof.
  split; [simpl; tauto|].
  apply (proj1 (proj2 (proj2 (proj2 bond_still_exists_row)))
           EvNewOwnerDisconnected).
  simpl; tauto.
Defined.

(** C4.  The transition function is total on the nine states and six
    events: it returns one of the nine states and a diagnostic.  For every
    pair that the table does not list as a legal transition, the state
    returned is the state given and the diagnostic is not ["OK"]. *)
Theorem transition_total (s : State) (e : Event) :
  exists (s' : State) (d : string),
    owner_swap_state_machine (event_code e) (state_code s)
    = (state_code s', d)
    /\ (spec_listed s e = false -> s' = s /\ d <> "OK").
Proof.
  destruct s, e; pick_state;
    simpl; intros H; try discriminate H;
    (split; [reflexivity | discriminate]).
Qed.

Lemma transition_total_witness :
  spec_listed OwnerSwapInitiated EvBondDeletion = false
  /\ exists (s' : State) (d : string),
      owner_swap_state_machine (event_code EvBondDeletion)
        (state_code OwnerSwapInitiated)
      = (state_code s', d)
      /\ (spec_listed OwnerSwapInitiated EvBondDeletion = false ->
          s' = OwnerSwapInitiated /\ d <> "OK").
Proof.
  split; [reflexivity|].
  apply (transition_total OwnerSwapInitiated EvBondDeletion).
Defined.

(** C5.  The success state is absorbing: on each of the six events the
    transition function, applied in the success state, returns the success
    state with diagnostic ["OK"]. *)
Theorem success_absorbing (e : Event) :
  owner_swap_state_machine (event_code e) (state_code OwnerSwapSuccess)
  = (state_code OwnerSwapSuccess, "OK").
Proof. apply success_absorbs. Qed.

(** ** Patterns that overlap *)

Lemma substring_0_prefix (n : nat) :
  forall (k : nat) (s a b : string),
    substring 0 (n + k) s = a ++ b -> String.length a = n ->
    substring 0 n s = a.
Proof.
  induction n as [|n IH]; intros k s a b H Hlen.
  - destruct a; [|discriminate Hlen]. destruct s; reflexivity.
  - destruct a as [|c a]; [discriminate Hlen|].
    destruct s as [|c' s]; simpl in H; [discriminate H|].
    injection H as -> H. injection Hlen as Hlen.
    simpl. f_equal. exact (IH k s a b H Hlen).
Qed.

Lemma substring_prefix (m : nat) :
  forall (n k : nat) (s a b : string),
    a <> "" ->
    substring m (n + k) s = a ++ b -> String.length a = n ->
    substring m n s = a.
Proof.
  induction m as [|m IH]; intros n k s a b Ha H Hlen.
  - exact (substring_0_prefix n k s a b H Hlen).
  - destruct s as [|c s].
    + destruct a; [contradiction | discriminate H].
    + simpl in *. exact (IH n k s a b Ha H Hlen).
Qed.

Lemma length_append (a b : string) :
  String.length (a ++ b) = (String.length a + String.length b)%nat.
Proof. induction a as [|c a IH]; simpl; [reflexivity | now rewrite IH]. Qed.

(** A line in which a text occurs also contains each non-empty prefix of
    that text. *)
Lemma re_search_prefix (a b line : string) :
  a <> "" -> re_search (a ++ b) line = true -> re_search a line = true.
Proof.
  intros Ha. unfold re_search.
  destruct (index 0 (a ++ b) line) as [m|] eqn:Hab; [intros _ | discriminate].
  destruct (index 0 a line) as [m'|] eqn:Hidx; [reflexivity|].
  exfalso.
  apply index_correct1 in Hab.
  rewrite length_append in Hab.
  apply (index_correct3 0 m a line Hidx Ha (Nat.le_0_l m)).
  exact (substring_prefix m _ _ line a b Ha Hab eq_refl).
Qed.

(** A successful bond deletion line matches the failure pattern too: only
    the order of the chain separates the two events. *)
Lemma bond_deletion_ok_matches_any (line : string) :
  re_search PAT_BOND_DELETION_OK line = true ->
  re_search PAT_BOND_DELETION_ANY line = true.
Proof.
  apply (re_search_prefix PAT_BOND_DELETION_ANY " 00" line). discriminate.
Qed.

Lemma first_match_at (before after : list (string * Event))
  (pattern : string) (ev : Event) (line : string) :
  (forall q, In q before -> re_search (fst q) line = false) ->
  re_search pattern line = true ->
  spec_first_match (before ++ (pattern, ev) :: after) line = Some ev.
Proof.
  induction before as [|[p0 e0] before IH]; intros Hbefore Hp; simpl.
  - rewrite Hp. reflexivity.
  - pose proof (Hbefore (p0, e0) (or_introl eq_refl)) as H0.
    simpl in H0. rewrite H0.
    apply IH; [|exact Hp]. intros q Hq. apply Hbefore. right. exact Hq.
Qed.

(** ** Claims about the extractor and the scenarios *)

(** C7.  The event of a line is found by going through the six patterns in
    their fixed order and taking the first that matches: if a pattern
    matches and none of the patterns before it in the list does, its event
    is the event of the line.  A line that contains the successful bond
    deletion text never gives the failed-deletion event, and gives the
    deletion event unless one of the three patterns of higher priority
    matches.  A line that matches no pattern gives no event, and the loop
    passes over it with state and diagnostic unchanged. *)
Theorem extractor_first_match (line : string) :
  extract_event line
  = option_map event_code (spec_first_match SPEC_PATTERNS line)
  /\ (forall (before after : list (string * Event)) (pattern : string)
        (ev : Event),
         SPEC_PATTERNS = (before ++ (pattern, ev) :: after)%list ->
         (forall q, In q before -> re_search (fst q) line = false) ->
         re_search pattern line = true ->
         extract_event line = Some (event_code ev))
  /\ (re_search PAT_BOND_DELETION_OK line = true ->
      extract_event line <> Some EVENT_BOND_DELETION_FAILED
      /\ (re_search PAT_PAIRING_STARTED line = false ->
          re_search PAT_PAIRING_COMPLETE line = false ->
          re_search PAT_LINK0_TERMINATED line = false ->
          extract_event line = Some EVENT_BOND_DELETION))
  /\ ((forall (pattern : string) (ev : Event),
          In (pattern, ev) SPEC_PATTERNS -> re_search pattern line = false) ->
      extract_event line = None
      /\ forall (rest : list read_event) (st : Z) (r : string),
          match_line line st r = ((st, r), false)
          /\ scan_lines (ReadLine line :: rest) st r = scan_lines rest st r).
Proof.
  split; [apply extract_event_first_match|].
  split.
  { intros before after pattern ev Heq Hbefore Hp.
    rewrite extract_event_first_match, Heq.
    rewrite (first_match_at before after pattern ev line Hbefore Hp).
    reflexivity. }
  split.
  { intros Hok. unfold extract_event. rewrite Hok. split.
    - repeat match goal with
             | |- context [re_search ?p line] => destruct (re_search p line)
             end; discriminate.
    - intros -> -> ->. reflexivity. }
  intros Hnone.
  assert (Hev : extract_event line = None).
  { unfold extract_event.
    rewrite (Hnone PAT_PAIRING_STARTED EvPairingStarted),
      (Hnone PAT_PAIRING_COMPLETE EvPairingCompleted),
      (Hnone PAT_LINK0_TERMINATED EvOldOwnerDisconnected),
      (Hnone PAT_BOND_DELETION_OK EvBondDeletion),
      (Hnone PAT_BOND_DELETION_ANY EvBondDeletionFailed),
      (Hnone PAT_LINK1_TERMINATED EvNewOwnerDisconnected);
      [reflexivity | simpl; tauto ..]. }
  split; [exact Hev|].
  intros rest st r. split.
  - apply match_line_no_event. exact Hev.
  - apply scan_lines_skip. exact Hev.
Qed.

Lemma extractor_first_match_witness :
  re_search PAT_BOND_DELETION_OK
    "09:14:02 BLE Cloud Event: Bond Deletion - Deletion Type: 02 | Status: 00"
  = true
  /\ extract_event
       "09:14:02 BLE Cloud Event: Bond Deletion - Deletion Type: 02 | Status: 00"
     <> Some EVENT_BOND_DELETION_FAILED.
Proof.
  split; [reflexivity|].
  apply (proj1 (proj2 (proj2 (extractor_first_match
    "09:14:02 BLE Cloud Event: Bond Deletion - Deletion Type: 02 | Status: 00")))).
  reflexivity.
Defined.

(** C6.  A stream of lines whose events, in order, are pairing started,
    pairing completed, pairing started, old owner disconnected, pairing
    completed, bond deletion, new owner disconnected is scanned from the
    initial state to the success state with diagnostic ["OK"], and its row
    has status ["PASSED"]. *)
Theorem scenario_full_success (lines : list string) :
  extracted_events lines
  = [EVENT_OWNER_PAIRING_STARTED; EVENT_OWNER_PAIRING_COMPLETED;
     EVENT_OWNER_PAIRING_STARTED; EVENT_OLD_OWNER_DISCONNECTED;
     EVENT_OWNER_PAIRING_COMPLETED; EVENT_BOND_DELETION;
     EVENT_NEW_OWNER_DISCONNECTED] ->
  scan_lines (text_lines lines) STATE_WAITING_FOR_OWNER_PAIRING "OK"
  = Ok (STATE_OWNER_SWAP_SUCCESS, "OK")
  /\ forall (fs : filesystem) (file_path : string) (report : list row),
      fs file_path = Ok (text_lines lines) ->
      analyze_log_file fs file_path report
      = (report
         ++ [[CStr (basename file_path); CStr "PASSED";
              CInt STATE_OWNER_SWAP_SUCCESS; CStr "OK"]])%list.
Proof.
  intros Hev.
  assert (Hscan :
            scan_lines (text_lines lines) STATE_WAITING_FOR_OWNER_PAIRING "OK"
            = Ok (STATE_OWNER_SWAP_SUCCESS, "OK")).
  { rewrite scan_lines_events, Hev. reflexivity. }
  split; [exact Hscan|].
  intros fs file_path report Hfs.
  rewrite analyze_log_file_row, (file_row_scanned _ _ _ Hfs), Hscan.
  reflexivity.
Qed.

Lemma scenario_full_success_witness :
  extracted_events SCENARIO_A
  = [EVENT_OWNER_PAIRING_STARTED; EVENT_OWNER_PAIRING_COMPLETED;
     EVENT_OWNER_PAIRING_STARTED; EVENT_OLD_OWNER_DISCONNECTED;
     EVENT_OWNER_PAIRING_COMPLETED; EVENT_BOND_DELETION;
     EVENT_NEW_OWNER_DISCONNECTED]
  /\ scan_lines (text_lines SCENARIO_A) STATE_WAITING_FOR_OWNER_PAIRING "OK"
     = Ok (STATE_OWNER_SWAP_SUCCESS, "OK").
Proof.
  split; [reflexivity|].
  apply (scenario_full_success SCENARIO_A). reflexivity.
Defined.

(** C8.  If the first line that gives an event gives pairing completed,
    the scan ends at that line in the initial state with diagnostic
    ["Owner Pairing was not started"], whatever follows, and the row has
    status ["FAILED"]. *)
Theorem scenario_out_of_order (pre : list string) (line : string)
  (post : list read_event) :
  (forall l, In l pre -> extract_event l = None) ->
  extract_event line = Some EVENT_OWNER_PAIRING_COMPLETED ->
  scan_lines (text_lines pre ++ ReadLine line :: post)
    STATE_WAITING_FOR_OWNER_PAIRING "OK"
  = Ok (STATE_WAITING_FOR_OWNER_PAIRING, "Owner Pairing was not started")
  /\ forall (fs : filesystem) (file_path : string) (report : list row),
      fs file_path = Ok (text_lines pre ++ ReadLine line :: post)%list ->
      analyze_log_file fs file_path report
      = (report
         ++ [[CStr (basename file_path); CStr "FAILED";
              CInt STATE_WAITING_FOR_OWNER_PAIRING;
              CStr "Owner Pairing was not started"]])%list.
Proof.
  intros Hpre Hline.
  assert (Hscan :
            scan_lines (text_lines pre ++ ReadLine line :: post)
              STATE_WAITING_FOR_OWNER_PAIRING "OK"
            = Ok (STATE_WAITING_FOR_OWNER_PAIRING,
                  "Owner Pairing was not started")).
  { rewrite (scan_lines_skip_all _ _ _ _ Hpre).
    rewrite (scan_lines_stop _ _ _ _ _ Hline); [reflexivity | discriminate]. }
  split; [exact Hscan|].
  intros fs file_path report Hfs.
  rewrite analyze_log_file_row, (file_row_scanned _ _ _ Hfs), Hscan.
  reflexivity.
Qed.

Lemma scenario_out_of_order_witness :
  extract_event "Owner Pairing Complete!" = Some EVENT_OWNER_PAIRING_COMPLETED
  /\ scan_lines
       (text_lines ["boot"; "radio up"]
        ++ ReadLine "Owner Pairing Complete!"
           :: [ReadLine "Owner Pairing Started"; ReadRaise "I/O error"])
       STATE_WAITING_FOR_OWNER_PAIRING "OK"
     = Ok (STATE_WAITING_FOR_OWNER_PAIRING, "Owner Pairing was not started").
Proof.
  split; [reflexivity|].
  apply (scenario_out_of_order ["boot"; "radio up"] "Owner Pairing Complete!"
           [ReadLine "Owner Pairing Started"; ReadRaise "I/O error"]).
  - intros l [<-|[<-|[]]]; reflexivity.
  - reflexivity.
Defined.

(** ** The exception path *)







(** * Further properties of the analyzer *)

(** ** The transition function on arbitrary integers *)

Ltac unfold_codes :=
  cbv [STATE_WAITING_FOR_OWNER_PAIRING STATE_OWNER_PAIRING_STARTED
       STATE_OWNER_PAIRING_COMPLETED STATE_OWNER_SWAP_INITIATED
       STATE_OLD_OWNER_DISCONNECTED STATE_OWNER_SWAP_COMPLETED
       STATE_BOND_DELETED_STILL_CONNECTED
       STATE_NEW_OWNER_DISCONNECTED_BOND_STILL_EXIST STATE_OWNER_SWAP_SUCCESS
       EVENT_OWNER_PAIRING_STARTED EVENT_OWNER_PAIRING_COMPLETED
       EVENT_OLD_OWNER_DISCONNECTED EVENT_BOND_DELETION
       EVENT_BOND_DELETION_FAILED EVENT_NEW_OWNER_DISCONNECTED] in *.

(** X1.  Given a state that is none of the nine constants and whose
    decimal numeral has at most 4300 digits (the limit within which Python
    converts an integer to text), the transition function returns it
    unchanged, whatever the event, with the diagnostic ["Unknown state: "]
    followed by the decimal numeral of the state; this diagnostic is not
    ["OK"]. *)
Theorem unknown_state_rejected (ev st : Z) :
  (st < 0 \/ 8 < st)%Z ->
  (Z.abs st < 10 ^ INT_MAX_STR_DIGITS)%Z ->
  owner_swap_state_machine ev st = (st, "Unknown state: " ++ str_of_int st)
  /\ snd (owner_swap_state_machine ev st) <> "OK".
Proof.
  intros Hst _. fsm_cases; unfold_codes; try (exfalso; lia).
  split; [reflexivity | discriminate].
Qed.

Lemma unknown_state_rejected_witness :
  (-3 < 0 \/ 8 < -3)%Z
  /\ (Z.abs (-3) < 10 ^ INT_MAX_STR_DIGITS)%Z
  /\ owner_swap_state_machine EVENT_BOND_DELETION (-3)
     = ((-3)%Z, "Unknown state: -3").
Proof.
  split; [left; reflexivity|].
  split; [vm_compute; reflexivity|].
  apply (proj1 (unknown_state_rejected EVENT_BOND_DELETION (-3)
                  (or_introl eq_refl) ltac:(vm_compute; reflexivity))).
Defined.

(** X2.  For all integers given as event and state, the state returned is
    never below the state given and at most two above it, and a diagnostic
    other than ["OK"] comes with the state unchanged. *)
Theorem state_never_goes_back (ev st : Z) :
  (st <= fst (owner_swap_state_machine ev st) <= st + 2)%Z
  /\ (snd (owner_swap_state_machine ev st) <> "OK" ->
      fst (owner_swap_state_machine ev st) = st).
Proof.
  split; [| apply failure_keeps_state].
  fsm_cases; simpl fst; subst; unfold_codes; lia.
Qed.

Lemma state_never_goes_back_witness :
  snd (owner_swap_state_machine EVENT_NEW_OWNER_DISCONNECTED
         STATE_OWNER_SWAP_INITIATED) <> "OK"
  /\ fst (owner_swap_state_machine EVENT_NEW_OWNER_DISCONNECTED
            STATE_OWNER_SWAP_INITIATED) = STATE_OWNER_SWAP_INITIATED.
Proof.
  split; [discriminate|].
  apply (proj2 (state_never_goes_back EVENT_NEW_OWNER_DISCONNECTED
                  STATE_OWNER_SWAP_INITIATED)).
  discriminate.
Defined.

(** ** What a scan can end with *)

Lemma known_state_step (ev st : Z) :
  (0 <= st <= 8)%Z ->
  (0 <= fst (owner_swap_state_machine ev st) <= 8)%Z
  /\ In (snd (owner_swap_state_machine ev st)) DIAGNOSTICS.
Proof.
  intros Hst.
  fsm_cases; simpl fst; simpl snd; subst; unfold_codes;
    try (exfalso; lia); (split; [lia | simpl; tauto]).
Qed.

Lemma extract_event_range (line : string) (ev : Z) :
  extract_event line = Some ev -> (0 <= ev <= 5)%Z.
Proof.
  unfold extract_event.
  repeat match goal with
         | |- context [re_search ?p line] => destruct (re_search p line)
         end; intros H; try discriminate H; injection H as <-;
    unfold_codes; lia.
Qed.

Lemma scan_lines_known (file : list read_event) :
  forall (st : Z) (r : string) (st' : Z) (r' : string),
    (0 <= st <= 8)%Z -> In r DIAGNOSTICS ->
    scan_lines file st r = Ok (st', r') ->
    (0 <= st' <= 8)%Z /\ In r' DIAGNOSTICS.
Proof.
  induction file as [|[l|e] file IH]; intros st r st' r' Hst Hr H.
  - simpl in H. injection H as <- <-. split; assumption.
  - simpl in H. unfold match_line in H.
    destruct (extract_event l) as [ev|].
    + pose proof (known_state_step ev st Hst) as [Hst1 Hr1].
      destruct (owner_swap_state_machine ev st) as [st1 r1].
      simpl in Hst1, Hr1.
      destruct (negb (r1 =? "OK")).
      * injection H as <- <-. split; assumption.
      * exact (IH _ _ _ _ Hst1 Hr1 H).
    + exact (IH _ _ _ _ Hst Hr H).
  - discriminate H.
Qed.

(** X3.  Whatever the file holds, a scan that returns ends in one of the
    nine states with one of the ten diagnostics of [DIAGNOSTICS]; the
    [Unknown state] answer is never the result of [analyze_log_file]. *)
Theorem scan_ends_in_known_state (file : list read_event) (st : Z)
  (d : string) :
  scan_lines file STATE_WAITING_FOR_OWNER_PAIRING "OK" = Ok (st, d) ->
  (0 <= st <= 8)%Z /\ In d DIAGNOSTICS
  /\ d <> "Unknown state: " ++ str_of_int st.
Proof.
  intros H.
  assert (H0 : (0 <= STATE_WAITING_FOR_OWNER_PAIRING <= 8)%Z)
    by (cbv; split; discriminate).
  destruct (scan_lines_known file _ _ _ _ H0 (or_introl eq_refl) H)
    as [Hst Hd].
  split; [exact Hst|]. split; [exact Hd|].
  intros ->. unfold DIAGNOSTICS in Hd. simpl In in Hd.
  repeat (destruct Hd as [Hd|Hd]; [discriminate Hd|]). exact Hd.
Qed.

Lemma scan_ends_in_known_state_witness :
  scan_lines (text_lines SCENARIO_A) STATE_WAITING_FOR_OWNER_PAIRING "OK"
  = Ok (STATE_OWNER_SWAP_SUCCESS, "OK")
  /\ (0 <= STATE_OWNER_SWAP_SUCCESS <= 8)%Z.
Proof.
  split; [reflexivity|].
  apply (proj1 (scan_ends_in_known_state (text_lines SCENARIO_A)
                  STATE_OWNER_SWAP_SUCCESS "OK" eq_refl)).
Defined.

(** ** Verdicts as a function of the events *)

Lemma row_of_lines (fs : filesystem) (file_path : string)
  (lines : list string) :
  fs file_path = Ok (text_lines lines) ->
  file_row fs file_path
  = verdict_row (basename file_path)
      (Ok (run_events (extracted_events lines)
             STATE_WAITING_FOR_OWNER_PAIRING "OK")).
Proof.
  intros H. rewrite (file_row_scanned _ _ _ H), scan_lines_events.
  reflexivity.
Qed.

(** X4.  Two files that read without error and give the same events in the
    same order end their scans alike, and files of the same name get the
    same row: lines that match no pattern, and the text around a pattern,
    have no influence on the verdict. *)
Theorem verdict_depends_on_events_only (lines lines' : list string) :
  extracted_events lines = extracted_events lines' ->
  (forall (st : Z) (r : string),
      scan_lines (text_lines lines) st r = scan_lines (text_lines lines') st r)
  /\ forall (fs fs' : filesystem) (file_path file_path' : string),
      fs file_path = Ok (text_lines lines) ->
      fs' file_path' = Ok (text_lines lines') ->
      basename file_path = basename file_path' ->
      file_row fs file_path = file_row fs' file_path'.
Proof.
  intros Hev. split.
  - intros st r. rewrite !scan_lines_events, Hev. reflexivity.
  - intros fs fs' p p' Hfs Hfs' Hname.
    rewrite (row_of_lines _ _ _ Hfs), (row_of_lines _ _ _ Hfs'), Hev, Hname.
    reflexivity.
Qed.

Lemma verdict_depends_on_events_only_witness :
  extracted_events ["x"; "Owner Pairing Complete!"; "y"]
  = extracted_events ["07:00 [ble] Owner Pairing Complete! (0x3)"]
  /\ scan_lines (text_lines ["x"; "Owner Pairing Complete!"; "y"]) 1 "OK"
     = scan_lines
         (text_lines ["07:00 [ble] Owner Pairing Complete! (0x3)"]) 1 "OK".
Proof.
  split; [reflexivity|].
  apply (proj1 (verdict_depends_on_events_only
                  ["x"; "Owner Pairing Complete!"; "y"]
                  ["07:00 [ble] Owner Pairing Complete! (0x3)"] eq_refl)).
Defined.

(** X5.  A file in which no line matches a pattern (the empty file among
    them) ends in the initial state with the default diagnostic ["OK"], and
    its row is ["FAILED"], [0], ["OK"]. *)
Theorem no_event_file_fails (lines : list string) :
  (forall l, In l lines -> extract_event l = None) ->
  scan_lines (text_lines lines) STATE_WAITING_FOR_OWNER_PAIRING "OK"
  = Ok (STATE_WAITING_FOR_OWNER_PAIRING, "OK")
  /\ forall (fs : filesystem) (file_path : string) (report : list row),
      fs file_path = Ok (text_lines lines) ->
      analyze_log_file fs file_path report
      = (report
         ++ [[CStr (basename file_path); CStr "FAILED";
              CInt STATE_WAITING_FOR_OWNER_PAIRING; CStr "OK"]])%list.
Proof.
  intros Hnone.
  assert (Hscan :
            scan_lines (text_lines lines) STATE_WAITING_FOR_OWNER_PAIRING "OK"
            = Ok (STATE_WAITING_FOR_OWNER_PAIRING, "OK")).
  { rewrite <- (app_nil_r (text_lines lines)).
    rewrite (scan_lines_skip_all _ _ _ _ Hnone). reflexivity. }
  split; [exact Hscan|].
  intros fs file_path report Hfs.
  rewrite analyze_log_file_row, (file_row_scanned _ _ _ Hfs), Hscan.
  reflexivity.
Qed.

Lemma no_event_file_fails_witness :
  scan_lines (text_lines []) STATE_WAITING_FOR_OWNER_PAIRING "OK"
  = Ok (STATE_WAITING_FOR_OWNER_PAIRING, "OK")
  /\ scan_lines (text_lines ["boot"; "Link Terminated Received, link 0x02"])
       STATE_WAITING_FOR_OWNER_PAIRING "OK"
     = Ok (STATE_WAITING_FOR_OWNER_PAIRING, "OK").
Proof.
  split.
  - apply (no_event_file_fails []). intros l [].
  - apply (no_event_file_fails
             ["boot"; "Link Terminated Received, link 0x02"]).
    intros l [<-|[<-|[]]]; reflexivity.
Defined.

(** ** The logs that pass *)

Lemma run_events_step (ev : Z) (evs : list Z) (st st' : Z) (r : string) :
  owner_swap_state_machine ev st = (st', "OK") ->
  run_events (ev :: evs) st r = run_events evs st' "OK".
Proof. intros H. simpl. rewrite H. reflexivity. Qed.

Lemma run_events_success (evs : list Z) :
  run_events evs STATE_OWNER_SWAP_SUCCESS "OK"
  = (STATE_OWNER_SWAP_SUCCESS, "OK").
Proof.
  induction evs as [|ev evs IH]; [reflexivity|].
  rewrite (run_events_step ev evs _ _ _ (success_absorbs ev)). exact IH.
Qed.

(** To pass from a state that is not the success state, the next event
    must be answered with ["OK"]. *)
Lemma run_events_pass_inv (evs : list Z) (st : Z) (r : string) :
  st <> STATE_OWNER_SWAP_SUCCESS ->
  run_events evs st r = (STATE_OWNER_SWAP_SUCCESS, "OK") ->
  exists (ev : Z) (evs' : list Z),
    evs = ev :: evs'
    /\ snd (owner_swap_state_machine ev st) = "OK"
    /\ run_events evs' (fst (owner_swap_state_machine ev st)) "OK"
       = (STATE_OWNER_SWAP_SUCCESS, "OK").
Proof.
  intros Hst H. destruct evs as [|ev evs]; simpl in H.
  - injection H as H _. contradiction.
  - exists ev, evs. split; [reflexivity|].
    destruct (owner_swap_state_machine ev st) as [st1 r1]. simpl.
    destruct (String.eqb_spec r1 "OK") as [Hr|Hr]; simpl in H.
    + subst r1. split; [reflexivity | exact H].
    + injection H as _ H. contradiction.
Qed.

(** The only event answered with ["OK"] in each of the first five states. *)
Lemma single_way (ev st : Z) :
  (0 <= st <= 4)%Z ->
  snd (owner_swap_state_machine ev st) = "OK" ->
  fst (owner_swap_state_machine ev st) = (st + 1)%Z
  /\ ev = nth (Z.to_nat st)
            [EVENT_OWNER_PAIRING_STARTED; EVENT_OWNER_PAIRING_COMPLETED;
             EVENT_OWNER_PAIRING_STARTED; EVENT_OLD_OWNER_DISCONNECTED;
             EVENT_OWNER_PAIRING_COMPLETED] ev.
Proof.
  intros Hst.
  fsm_cases; simpl fst; simpl snd; intros H; try discriminate H;
    subst; unfold_codes; try (exfalso; lia); split; reflexivity.
Qed.

Lemma ways_from_swap_completed (ev : Z) :
  snd (owner_swap_state_machine ev STATE_OWNER_SWAP_COMPLETED) = "OK" ->
  (ev = EVENT_BOND_DELETION
   /\ fst (owner_swap_state_machine ev STATE_OWNER_SWAP_COMPLETED)
      = STATE_BOND_DELETED_STILL_CONNECTED)
  \/ (ev = EVENT_NEW_OWNER_DISCONNECTED
      /\ fst (owner_swap_state_machine ev STATE_OWNER_SWAP_COMPLETED)
         = STATE_NEW_OWNER_DISCONNECTED_BOND_STILL_EXIST).
Proof.
  unfold owner_swap_state_machine. simpl.
  destruct (Z.eqb_spec ev EVENT_BOND_DELETION); [left; split; auto|].
  destruct (Z.eqb_spec ev EVENT_BOND_DELETION_FAILED); [discriminate|].
  destruct (Z.eqb_spec ev EVENT_NEW_OWNER_DISCONNECTED);
    [right; split; auto | discriminate].
Qed.

Lemma ways_from_bond_deleted (ev : Z) :
  snd (owner_swap_state_machine ev STATE_BOND_DELETED_STILL_CONNECTED) = "OK" ->
  (ev = EVENT_NEW_OWNER_DISCONNECTED
   /\ fst (owner_swap_state_machine ev STATE_BOND_DELETED_STILL_CONNECTED)
      = STATE_OWNER_SWAP_SUCCESS)
  \/ (ev = EVENT_OLD_OWNER_DISCONNECTED
      /\ fst (owner_swap_state_machine ev STATE_BOND_DELETED_STILL_CONNECTED)
         = STATE_BOND_DELETED_STILL_CONNECTED).
Proof.
  unfold owner_swap_state_machine. simpl.
  destruct (Z.eqb_spec ev EVENT_NEW_OWNER_DISCONNECTED); [left; split; auto|].
  destruct (Z.eqb_spec ev EVENT_OLD_OWNER_DISCONNECTED);
    [right; split; auto | discriminate].
Qed.

Lemma ways_from_bond_still_exists (ev : Z) :
  snd (owner_swap_state_machine ev
         STATE_NEW_OWNER_DISCONNECTED_BOND_STILL_EXIST) = "OK" ->
  (ev = EVENT_BOND_DELETION
   /\ fst (owner_swap_state_machine ev
             STATE_NEW_OWNER_DISCONNECTED_BOND_STILL_EXIST)
      = STATE_OWNER_SWAP_SUCCESS)
  \/ (ev = EVENT_OLD_OWNER_DISCONNECTED
      /\ fst (owner_swap_state_machine ev
                STATE_NEW_OWNER_DISCONNECTED_BOND_STILL_EXIST)
         = STATE_NEW_OWNER_DISCONNECTED_BOND_STILL_EXIST).
Proof.
  unfold owner_swap_state_machine. simpl.
  destruct (Z.eqb_spec ev EVENT_BOND_DELETION); [left; split; auto|].
  destruct (Z.eqb_spec ev EVENT_BOND_DELETION_FAILED); [discriminate|].
  destruct (Z.eqb_spec ev EVENT_OLD_OWNER_DISCONNECTED);
    [right; split; auto | discriminate].
Qed.

(** In a state that waits for one event and lets the old owner's
    disconnection pass, a passing run is some disconnections of the old
    owner, the awaited event, and anything after it. *)
Lemma pass_from_waiting_state (st exit_ev : Z) :
  st <> STATE_OWNER_SWAP_SUCCESS ->
  (forall ev,
      snd (owner_swap_state_machine ev st) = "OK" ->
      (ev = exit_ev
       /\ fst (owner_swap_state_machine ev st) = STATE_OWNER_SWAP_SUCCESS)
      \/ (ev = EVENT_OLD_OWNER_DISCONNECTED
          /\ fst (owner_swap_state_machine ev st) = st)) ->
  forall (evs : list Z) (r : string),
    run_events evs st r = (STATE_OWNER_SWAP_SUCCESS, "OK") ->
    exists (k : nat) (tail : list Z),
      evs = (repeat EVENT_OLD_OWNER_DISCONNECTED k ++ exit_ev :: tail)%list.
Proof.
  intros Hst Hways.
  induction evs as [|ev evs IH]; intros r H;
    apply (run_events_pass_inv _ _ _ Hst) in H;
    destruct H as (ev0 & evs0 & Heq & Hok & Hrun); [discriminate Heq|].
  injection Heq as <- <-.
  destruct (Hways ev Hok) as [[-> _] | [-> Hsame]].
  - exists 0%nat, evs. reflexivity.
  - rewrite Hsame in Hrun. destruct (IH _ Hrun) as (k & tail & ->).
    exists (S k), tail. reflexivity.
Qed.

Lemma run_events_old_owner_noise (st : Z) (k : nat) (rest : list Z) :
  owner_swap_state_machine EVENT_OLD_OWNER_DISCONNECTED st = (st, "OK") ->
  run_events (repeat EVENT_OLD_OWNER_DISCONNECTED k ++ rest) st "OK"
  = run_events rest st "OK".
Proof.
  intros H. induction k as [|k IH]; [reflexivity|].
  simpl repeat. rewrite <- app_comm_cons.
  rewrite (run_events_step _ _ _ _ _ H). exact IH.
Qed.

Lemma run_events_pass_iff (evs : list Z) :
  run_events evs STATE_WAITING_FOR_OWNER_PAIRING "OK"
  = (STATE_OWNER_SWAP_SUCCESS, "OK")
  <-> exists (k : nat) (tail : list Z),
      evs = ([EVENT_OWNER_PAIRING_STARTED; EVENT_OWNER_PAIRING_COMPLETED;
              EVENT_OWNER_PAIRING_STARTED; EVENT_OLD_OWNER_DISCONNECTED;
              EVENT_OWNER_PAIRING_COMPLETED]
             ++ EVENT_BOND_DELETION
                :: repeat EVENT_OLD_OWNER_DISCONNECTED k
                   ++ EVENT_NEW_OWNER_DISCONNECTED :: tail)%list
      \/ evs = ([EVENT_OWNER_PAIRING_STARTED; EVENT_OWNER_PAIRING_COMPLETED;
                 EVENT_OWNER_PAIRING_STARTED; EVENT_OLD_OWNER_DISCONNECTED;
                 EVENT_OWNER_PAIRING_COMPLETED]
                ++ EVENT_NEW_OWNER_DISCONNECTED
                   :: repeat EVENT_OLD_OWNER_DISCONNECTED k
                      ++ EVENT_BOND_DELETION :: tail)%list.
Proof.
  split.
  - intros H.
    (* the five states with a single way forward *)
    do 5 (apply run_events_pass_inv in H; [| cbv; discriminate];
          destruct H as (ev & evs' & -> & Hok & H);
          apply single_way in Hok; [| cbv; split; discriminate];
          destruct Hok as [Hnext Hev]; rewrite Hnext in H;
          cbv in Hev; subst ev; clear Hnext; revert H;
          generalize evs'; clear evs'; intros evs H).
    apply run_events_pass_inv in H; [| cbv; discriminate].
    destruct H as (ev & evs' & -> & Hok & H).
    assert (Hok5 : snd (owner_swap_state_machine ev
                          STATE_OWNER_SWAP_COMPLETED) = "OK") by exact Hok.
    assert (H6 : STATE_BOND_DELETED_STILL_CONNECTED
                 <> STATE_OWNER_SWAP_SUCCESS) by discriminate.
    assert (H7 : STATE_NEW_OWNER_DISCONNECTED_BOND_STILL_EXIST
                 <> STATE_OWNER_SWAP_SUCCESS) by discriminate.
    destruct (ways_from_swap_completed ev Hok5) as [[-> _] | [-> _]].
    + assert (Hrun : run_events evs' STATE_BOND_DELETED_STILL_CONNECTED "OK"
                     = (STATE_OWNER_SWAP_SUCCESS, "OK")) by exact H.
      destruct (pass_from_waiting_state _ _ H6 ways_from_bond_deleted _ _ Hrun)
        as (k & tail & ->).
      exists k, tail. left. reflexivity.
    + assert (Hrun : run_events evs'
                       STATE_NEW_OWNER_DISCONNECTED_BOND_STILL_EXIST "OK"
                     = (STATE_OWNER_SWAP_SUCCESS, "OK")) by exact H.
      destruct (pass_from_waiting_state _ _ H7 ways_from_bond_still_exists
                  _ _ Hrun) as (k & tail & ->).
      exists k, tail. right. reflexivity.
  - intros (k & tail & [-> | ->]); simpl app;
      repeat (erewrite run_events_step by reflexivity);
      rewrite run_events_old_owner_noise by reflexivity;
      erewrite run_events_step by reflexivity;
      apply run_events_success.
Qed.

(** X6.  A file that reads without error passes (its scan ends in the
    success state with ["OK"]) exactly when its events begin with pairing
    started, pairing completed, pairing started, old owner disconnected,
    pairing completed, followed by bond deletion and the new owner's
    disconnection in either order, with any number of disconnections of the
    old owner between these two; what comes after is free. *)
Theorem pass_iff_full_sequence (lines : list string) :
  scan_lines (text_lines lines) STATE_WAITING_FOR_OWNER_PAIRING "OK"
  = Ok (STATE_OWNER_SWAP_SUCCESS, "OK")
  <-> exists (k : nat) (tail : list Z),
      extracted_events lines
      = ([EVENT_OWNER_PAIRING_STARTED; EVENT_OWNER_PAIRING_COMPLETED;
          EVENT_OWNER_PAIRING_STARTED; EVENT_OLD_OWNER_DISCONNECTED;
          EVENT_OWNER_PAIRING_COMPLETED]
         ++ EVENT_BOND_DELETION
            :: repeat EVENT_OLD_OWNER_DISCONNECTED k
               ++ EVENT_NEW_OWNER_DISCONNECTED :: tail)%list
      \/ extracted_events lines
         = ([EVENT_OWNER_PAIRING_STARTED; EVENT_OWNER_PAIRING_COMPLETED;
             EVENT_OWNER_PAIRING_STARTED; EVENT_OLD_OWNER_DISCONNECTED;
             EVENT_OWNER_PAIRING_COMPLETED]
            ++ EVENT_NEW_OWNER_DISCONNECTED
               :: repeat EVENT_OLD_OWNER_DISCONNECTED k
                  ++ EVENT_BOND_DELETION :: tail)%list.
Proof.
  rewrite scan_lines_events, <- run_events_pass_iff.
  split; [intros H; injection H as H; exact H | intros ->; reflexivity].
Qed.

Lemma pass_iff_full_sequence_witness :
  scan_lines
    (text_lines
       ["Owner Pairing Started"; "Owner Pairing Complete!";
        "Owner Pairing Started"; "Link Terminated Received, link 0x00";
        "Owner Pairing Complete!"; "Link Terminated Received, link 0x01";
        "Link Terminated Received, link 0x00";
        "Link Terminated Received, link 0x00";
        "BLE Cloud Event: Bond Deletion - Deletion Type: 02 | Status: 00";
        "Owner Pairing Started"])
    STATE_WAITING_FOR_OWNER_PAIRING "OK"
  = Ok (STATE_OWNER_SWAP_SUCCESS, "OK").
Proof.
  apply (proj2 (pass_iff_full_sequence _)).
  exists 2%nat, [EVENT_OWNER_PAIRING_STARTED]. right. reflexivity.
Defined.

(** X7.  Once a prefix of the lines has passed, the lines that follow
    cannot take the verdict back: the scan of the longer file ends in the
    success state with ["OK"] as well. *)
Theorem pass_survives_more_lines (pre post : list string) :
  scan_lines (text_lines pre) STATE_WAITING_FOR_OWNER_PAIRING "OK"
  = Ok (STATE_OWNER_SWAP_SUCCESS, "OK") ->
  scan_lines (text_lines (pre ++ post)) STATE_WAITING_FOR_OWNER_PAIRING "OK"
  = Ok (STATE_OWNER_SWAP_SUCCESS, "OK").
Proof.
  intros H. unfold text_lines. rewrite map_app.
  rewrite (scan_lines_app _ _ _ _ _ H).
  fold (text_lines post). rewrite scan_lines_events, run_events_success.
  reflexivity.
Qed.

Lemma pass_survives_more_lines_witness :
  scan_lines (text_lines SCENARIO_A) STATE_WAITING_FOR_OWNER_PAIRING "OK"
  = Ok (STATE_OWNER_SWAP_SUCCESS, "OK")
  /\ scan_lines
       (text_lines
          (SCENARIO_A
           ++ ["Owner Pairing Complete!";
               "BLE Cloud Event: Bond Deletion - Deletion Type: 02 | Status: 07"]))
       STATE_WAITING_FOR_OWNER_PAIRING "OK"
     = Ok (STATE_OWNER_SWAP_SUCCESS, "OK").
Proof.
  split; [reflexivity|].
  apply (pass_survives_more_lines SCENARIO_A). reflexivity.
Defined.

(** ** Where a failure comes from *)

Lemma stop_point (lines : list string) :
  forall (st st' : Z) (d : string),
    scan_lines (text_lines lines) st "OK" = Ok (st', d) ->
    d <> "OK" ->
    exists (pre : list string) (line : string) (post : list string),
      lines = (pre ++ line :: post)%list
      /\ scan_lines (text_lines pre) st "OK" = Ok (st', "OK")
      /\ match_line line st' "OK" = ((st', d), true).
Proof.
  induction lines as [|l lines IH]; intros st st' d H Hd.
  - simpl in H. injection H as _ H. symmetry in H. contradiction.
  - change (text_lines (l :: lines)) with (ReadLine l :: text_lines lines)
      in H.
    simpl in H. unfold match_line in H.
    destruct (extract_event l) as [ev|] eqn:Hev.
    + destruct (owner_swap_state_machine ev st) as [st1 r1] eqn:Hm.
      destruct (String.eqb_spec r1 "OK") as [Hr|Hr]; simpl in H.
      * subst r1. destruct (IH _ _ _ H Hd) as (pre & line & post & -> & Hp & Hl).
        exists (l :: pre), line, post. split; [reflexivity|].
        split; [| exact Hl].
        change (text_lines (l :: pre)) with (ReadLine l :: text_lines pre).
        simpl. unfold match_line. rewrite Hev, Hm. exact Hp.
      * injection H as <- <-.
        pose proof (failure_keeps_state ev st) as Hkeep.
        rewrite Hm in Hkeep. simpl in Hkeep. specialize (Hkeep Hr). subst st1.
        exists [], l, lines. split; [reflexivity|].
        split; [reflexivity|].
        unfold match_line. rewrite Hev, Hm. reflexivity.
    + destruct (IH _ _ _ H Hd) as (pre & line & post & -> & Hp & Hl).
      exists (l :: pre), line, post. split; [reflexivity|].
      split; [| exact Hl].
      change (text_lines (l :: pre)) with (ReadLine l :: text_lines pre).
      simpl. unfold match_line. rewrite Hev. exact Hp.
Qed.

(** X8.  A scan that ends with a diagnostic other than ["OK"] has stopped
    at some line: the lines before it were scanned with ["OK"] and brought
    the machine to the final state, and that line matched a pattern whose
    event was refused in this state with the final diagnostic.  The final
    state is therefore the state in which the refused event arrived. *)
Theorem failure_has_stop_line (lines : list string) (st : Z) (d : string) :
  scan_lines (text_lines lines) STATE_WAITING_FOR_OWNER_PAIRING "OK"
  = Ok (st, d) ->
  d <> "OK" ->
  exists (pre : list string) (line : string) (post : list string) (ev : Z),
    lines = (pre ++ line :: post)%list
    /\ scan_lines (text_lines pre) STATE_WAITING_FOR_OWNER_PAIRING "OK"
       = Ok (st, "OK")
    /\ extract_event line = Some ev
    /\ owner_swap_state_machine ev st = (st, d).
Proof.
  intros H Hd.
  destruct (stop_point lines _ _ _ H Hd) as (pre & line & post & Hl & Hp & Hm).
  exists pre, line, post.
  unfold match_line in Hm.
  destruct (extract_event line) as [ev|]; [| discriminate Hm].
  exists ev. injection Hm as Hm. repeat split; assumption.
Qed.

Lemma failure_has_stop_line_witness :
  exists (pre : list string) (line : string) (post : list string) (ev : Z),
    ["boot"; "Owner Pairing Started"; "Link Terminated Received, link 0x00";
     "Owner Pairing Complete!"]
    = (pre ++ line :: post)%list
    /\ scan_lines (text_lines pre) STATE_WAITING_FOR_OWNER_PAIRING "OK"
       = Ok (STATE_OWNER_PAIRING_STARTED, "OK")
    /\ extract_event line = Some ev
    /\ owner_swap_state_machine ev STATE_OWNER_PAIRING_STARTED
       = (STATE_OWNER_PAIRING_STARTED, "Owner Pairing was not completed").
Proof.
  apply (failure_has_stop_line
           ["boot"; "Owner Pairing Started";
            "Link Terminated Received, link 0x00"; "Owner Pairing Complete!"]
           STATE_OWNER_PAIRING_STARTED "Owner Pairing was not completed").
  - reflexivity.
  - discriminate.
Defined.

(** * File discovery *)

(** ** Paths *)

Lemma append_assoc (a b c : string) : (a ++ b) ++ c = a ++ b ++ c.
Proof. induction a as [|x a IH]; simpl; [reflexivity | now rewrite IH]. Qed.

Lemma endswith_refl (s : string) : endswith s s = true.
Proof. destruct s; cbn [endswith]; rewrite String.eqb_refl; reflexivity. Qed.

Lemma endswith_iff (s suffix : string) :
  endswith s suffix = true <-> exists a, s = a ++ suffix.
Proof.
  induction s as [|c s IH]; cbn [endswith].
  - rewrite orb_false_r, String.eqb_eq. split.
    + intros H. exists "". exact H.
    + intros [a H]. destruct a; simpl in H; [exact H | discriminate H].
  - rewrite orb_true_iff, IH, String.eqb_eq. split.
    + intros [H | [a ->]].
      * exists "". exact H.
      * exists (String c a). reflexivity.
    + intros [[|c' a] H]; simpl in H.
      * left. exact H.
      * injection H as _ ->. right. exists a. reflexivity.
Qed.

Lemma has_sep_append (a b : string) :
  has_sep (a ++ b) = has_sep a || has_sep b.
Proof.
  induction a as [|c a IH]; simpl; [reflexivity|].
  rewrite IH, orb_assoc. reflexivity.
Qed.

Lemma basename_plain (p : string) : has_sep p = false -> basename p = p.
Proof.
  destruct p as [|c p]; simpl; [reflexivity|].
  intros H. apply orb_false_iff in H as [Hc Hp]. rewrite Hp, Hc. reflexivity.
Qed.

Lemma basename_after_sep (a file : string) :
  has_sep file = false -> basename (a ++ "/" ++ file) = file.
Proof.
  intros Hf. induction a as [|c a IH]; simpl.
  - rewrite Hf. reflexivity.
  - rewrite has_sep_append. simpl. rewrite orb_true_r. exact IH.
Qed.

Lemma basename_has_no_sep (p : string) : has_sep (basename p) = false.
Proof.
  induction p as [|c p IH]; [reflexivity|]. simpl.
  destruct (has_sep p) eqn:Hp; [exact IH|].
  destruct (Ascii.eqb c "/") eqn:Hc; [exact Hp|].
  simpl. rewrite Hc, Hp. reflexivity.
Qed.

Lemma no_sep_not_absolute (file : string) :
  has_sep file = false -> startswith file "/" = false.
Proof.
  destruct file as [|c file]; [reflexivity|]. cbn [has_sep].
  intros H. apply orb_false_iff in H as [Hc _].
  unfold startswith. cbn [prefix].
  destruct (ascii_dec "/" c) as [<-|Hne]; [| reflexivity].
  rewrite Ascii.eqb_refl in Hc. discriminate Hc.
Qed.

Lemma os_path_join_under (root file : string) :
  has_sep file = false ->
  os_path_join root file = root ++ file
  \/ os_path_join root file = root ++ "/" ++ file.
Proof.
  intros Hf. unfold os_path_join. rewrite (no_sep_not_absolute _ Hf).
  destruct ((root =? "") || endswith root "/"); [left | right]; reflexivity.
Qed.

Lemma basename_join (root file : string) :
  has_sep file = false -> basename (os_path_join root file) = file.
Proof.
  intros Hf. unfold os_path_join. rewrite (no_sep_not_absolute _ Hf).
  destruct (String.eqb_spec root "") as [->|Hroot]; simpl orb.
  - apply basename_plain. exact Hf.
  - destruct (endswith root "/") eqn:Hend.
    + apply endswith_iff in Hend as [a ->].
      rewrite append_assoc. apply basename_after_sep. exact Hf.
    + apply basename_after_sep. exact Hf.
Qed.

(** X9.  For a file name without ["/"], the base name of
    [os.path.join(root, file)] is [file] again, whatever [root] is (empty,
    ending in ["/"] or not), and the joined path is [root] followed by the
    name with at most one ["/"] between; the base name of any path
    contains no ["/"]. *)
Theorem basename_of_joined_path (root file : string) :
  (has_sep file = false ->
   basename (os_path_join root file) = file
   /\ (os_path_join root file = root ++ file
       \/ os_path_join root file = root ++ "/" ++ file))
  /\ has_sep (basename root) = false.
Proof.
  split; [| apply basename_has_no_sep].
  intros Hf. split; [apply basename_join | apply os_path_join_under];
    exact Hf.
Qed.

Lemma basename_of_joined_path_witness :
  has_sep "device.log" = false
  /\ basename (os_path_join "/home/qa/logs/" "device.log") = "device.log".
Proof.
  split; [reflexivity|].
  apply (proj1 (proj1 (basename_of_joined_path "/home/qa/logs/" "device.log")
                  eq_refl)).
Defined.

(** ** The walk *)

Lemma fs_dir_induction (P : fs_dir -> Prop) :
  P NotWalked ->
  (forall (dirs : list (string * fs_dir)) (files : list string),
      (forall name sub, In (name, sub) dirs -> P sub) ->
      P (Listing dirs files)) ->
  forall d : fs_dir, P d.
Proof.
  intros HN HL. fix IH 1. intros [dirs files|]; [| exact HN].
  apply HL. induction dirs as [|[n s] dirs IHdirs]; intros name sub Hin.
  - destruct Hin.
  - destruct Hin as [Heq|Hin].
    + injection Heq as _ <-. apply IH.
    + exact (IHdirs name sub Hin).
Qed.

Lemma walk_listing (top : string) (dirs : list (string * fs_dir))
  (files : list string) (t : string * list string * list string) :
  In t (walk top (Listing dirs files))
  <-> t = (top, map fst dirs, files)
      \/ exists name sub,
          In (name, sub) dirs /\ In t (walk (os_path_join top name) sub).
Proof.
  cbn [walk]. split.
  - intros [H|H]; [left; symmetry; exact H|]. right.
    apply in_flat_map in H as [[name sub] [Hin Ht]]. exists name, sub.
    split; assumption.
  - intros [->|(name & sub & Hin & Ht)]; [left; reflexivity|]. right.
    apply in_flat_map. exists (name, sub). split; assumption.
Qed.

(** What [os.walk] yields is what [listed_in] describes. *)
Lemma walk_listed (d : fs_dir) :
  forall (top root file : string),
    listed_in top d root file
    <-> exists dirs files,
        In (root, dirs, files) (walk top d) /\ In file files.
Proof.
  induction d as [|dirs files IH] using fs_dir_induction;
    intros top root file.
  - split; [intros H; inversion H | intros (ds & fs & [] & _)].
  - split.
    + intros H. inversion H as [? ? ? ? Hin | ? ? ? name sub ? ? Hin Hsub];
        subst.
      * exists (map fst dirs), files. split; [| exact Hin].
        apply walk_listing. left. reflexivity.
      * apply (IH name sub Hin) in Hsub as (ds & fs & Ht & Hf).
        exists ds, fs. split; [| exact Hf].
        apply walk_listing. right. exists name, sub. split; assumption.
    + intros (ds & fs & Ht & Hf).
      apply walk_listing in Ht as [Heq | (name & sub & Hin & Ht)].
      * injection Heq as -> _ ->. apply listed_here. exact Hf.
      * apply (listed_below top dirs files name sub root file Hin).
        apply (IH name sub Hin). exists ds, fs. split; assumption.
Qed.

Lemma find_log_files_iff (directory : string) (tree : fs_dir) (p : string) :
  In p (find_log_files directory tree)
  <-> exists root file,
      listed_in directory tree root file
      /\ endswith file ".log" = true
      /\ p = os_path_join root file.
Proof.
  unfold find_log_files. rewrite in_flat_map. split.
  - intros [[[root dirs] files] [Ht Hp]].
    apply in_map_iff in Hp as (file & <- & Hfile).
    apply filter_In in Hfile as [Hin Hlog].
    exists root, file. split; [| split; [exact Hlog | reflexivity]].
    apply walk_listed. exists dirs, files. split; assumption.
  - intros (root & file & Hl & Hlog & ->).
    apply walk_listed in Hl as (dirs & files & Ht & Hin).
    exists (root, dirs, files). split; [exact Ht|].
    apply in_map. apply filter_In. split; assumption.
Qed.

(** X10.  [find_log_files] returns a path exactly when it is
    [os.path.join(root, file)] for a directory [root] reached by the walk
    from the starting directory and a file [file] listed there whose name
    ends in [".log"]: nothing else is returned and no such file is missed.
    Directories that are not walked contribute nothing. *)
Theorem find_log_files_exact (directory : string) (tree : fs_dir) :
  (forall p : string,
      In p (find_log_files directory tree)
      <-> exists root file,
          listed_in directory tree root file
          /\ endswith file ".log" = true
          /\ p = os_path_join root file)
  /\ find_log_files directory NotWalked = [].
Proof.
  split; [intros p; apply find_log_files_iff | reflexivity].
Qed.

Lemma find_log_files_exact_witness :
  In "/home/qa/logs/run1/raw/radio.log"
    (find_log_files "/home/qa/logs" SAMPLE_TREE).
Proof.
  apply (proj2 (proj1 (find_log_files_exact "/home/qa/logs" SAMPLE_TREE) _)).
  exists "/home/qa/logs/run1/raw", "radio.log". split; [| split; reflexivity].
  eapply listed_below; [left; reflexivity|].
  eapply listed_below; [left; reflexivity|].
  apply listed_here. right. left. reflexivity.
Defined.

(** X11.  When no file name in the tree contains ["/"], every path that
    [find_log_files] returns has a base name ending in [".log"]; this base
    name is what [analyze_log_file] writes in the first column of the
    file's row. *)
Theorem found_files_are_logs (directory : string) (tree : fs_dir)
  (fs : filesystem) (p : string) :
  (forall root file,
      listed_in directory tree root file -> has_sep file = false) ->
  In p (find_log_files directory tree) ->
  endswith (basename p) ".log" = true
  /\ exists rest,
      file_row fs p = CStr (basename p) :: rest.
Proof.
  intros Hnames Hp.
  apply find_log_files_iff in Hp as (root & file & Hl & Hlog & ->).
  split; [rewrite (basename_join _ _ (Hnames _ _ Hl)); exact Hlog|].
  unfold file_row, verdict_row.
  destruct (scan_file fs (os_path_join root file)) as [[st r]|e].
  - destruct (negb (st =? STATE_OWNER_SWAP_SUCCESS)%Z || negb (r =? "OK"));
      eexists; reflexivity.
  - eexists; reflexivity.
Qed.

Lemma found_files_are_logs_witness :
  In "/logs/run/b.log"
    (find_log_files "/logs"
       (Listing [("run", Listing [] ["b.log"])] ["a.log"; "x.txt"]))
  /\ endswith (basename "/logs/run/b.log") ".log" = true.
Proof.
  split; [right; left; reflexivity|].
  apply (found_files_are_logs "/logs"
           (Listing [("run", Listing [] ["b.log"])] ["a.log"; "x.txt"])
           BATCH_FS "/logs/run/b.log").
  - intros root file H.
    inversion H as [? ? ? ? Hin | ? ? ? name sub ? ? Hin Hsub]; subst.
    + destruct Hin as [<-|[<-|[]]]; reflexivity.
    + destruct Hin as [Heq|[]]. injection Heq as <- <-.
      inversion Hsub as [? ? ? ? Hin | ? ? ? ? ? ? ? Hin _]; subst.
      * destruct Hin as [<-|[]]; reflexivity.
      * destruct Hin.
  - right; left; reflexivity.
Defined.

(** X12.  If no walked directory lists a file whose name ends in [".log"]
    (an empty or unreadable starting directory among the cases),
    [find_log_files] returns the empty list and [main] returns before it
    writes a report. *)
Theorem no_logs_no_report (directory : string) (tree : fs_dir)
  (fs : filesystem) :
  (forall root file,
      listed_in directory tree root file -> endswith file ".log" = false) ->
  find_log_files directory tree = []
  /\ main fs (find_log_files directory tree) = None.
Proof.
  intros Hnone.
  assert (Hempty : find_log_files directory tree = []).
  { destruct (find_log_files directory tree) as [|p l] eqn:Hfound;
      [reflexivity|].
    assert (Hp : In p (find_log_files directory tree))
      by (rewrite Hfound; left; reflexivity).
    apply find_log_files_iff in Hp as (root & file & Hl & Hlog & _).
    rewrite (Hnone _ _ Hl) in Hlog. discriminate Hlog. }
  split; [exact Hempty|]. rewrite Hempty. reflexivity.
Qed.

Lemma no_logs_no_report_witness :
  main BATCH_FS
    (find_log_files "/logs"
       (Listing [("old", NotWalked)] ["device.LOG"; "log"; "a.log.gz"]))
  = None.
Proof.
  apply (no_logs_no_report "/logs"
           (Listing [("old", NotWalked)] ["device.LOG"; "log"; "a.log.gz"])
           BATCH_FS).
  intros root file H.
  inversion H as [? ? ? ? Hin | ? ? ? name sub ? ? Hin Hsub]; subst.
  - destruct Hin as [<-|[<-|[<-|[]]]]; reflexivity.
  - destruct Hin as [Heq|[]]. injection Heq as <- <-. inversion Hsub.
Defined.

(** ** The shape of the report *)

Lemma verdict_row_of_file (log_file : string) (outcome : exc (Z * string)) :
  row_of_file log_file (verdict_row (basename log_file) outcome).
Proof.
  unfold row_of_file, verdict_row.
  destruct outcome as [[st r]|e].
  - destruct (negb (st =? STATE_OWNER_SWAP_SUCCESS)%Z || negb (r =? "OK")).
    + exists "FAILED", (CInt st), r. split; [reflexivity | right; reflexivity].
    + exists "PASSED", (CInt st), r. split; [reflexivity | left; reflexivity].
  - exists "FAILED", (CStr "EXCEPTION"), e.
    split; [reflexivity | right; reflexivity].
Qed.

Lemma print_effect (env : Fallible.environment) (text : string)
  (w : Fallible.world) (res : exc unit) (w' : Fallible.world) :
  Fallible.print env text w = (res, w') ->
  Fallible.report_file w' = Fallible.report_file w.
Proof.
  unfold Fallible.print.
  destruct (Fallible.print_error env text); intros H; injection H as _ <-;
    reflexivity.
Qed.

Lemma append_row_effect (env : Fallible.environment) (r : row)
  (w : Fallible.world) (rows : list row) (res : exc unit)
  (w' : Fallible.world) :
  Fallible.report_file w = Some rows ->
  Fallible.append_row env r w = (res, w') ->
  (res = Ok tt /\ Fallible.report_file w' = Some (rows ++ [r])%list)
  \/ ((exists e, res = Raised e) /\ Fallible.report_file w' = Some rows).
Proof.
  intros Hrows. unfold Fallible.append_row, Fallible.current_rows.
  rewrite Hrows.
  destruct (Fallible.write_error env rows r) as [[e|e]|];
    intros H; injection H as <- <-.
  - right. split; [exists e; reflexivity | exact Hrows].
  - right. split; [exists e; reflexivity | reflexivity].
  - left. split; reflexivity.
Qed.

(** A call of [analyze_log_file] on an existing report appends one row for
    its file and returns, or raises and leaves the rows as they were. *)
Lemma analyze_log_file_effect (env : Fallible.environment)
  (log_file : string) (w : Fallible.world) (rows : list row)
  (res : exc unit) (w' : Fallible.world) :
  Fallible.report_file w = Some rows ->
  Fallible.analyze_log_file env log_file w = (res, w') ->
  (res = Ok tt
   /\ exists r, row_of_file log_file r
                /\ Fallible.report_file w' = Some (rows ++ [r])%list)
  \/ ((exists e, res = Raised e) /\ Fallible.report_file w' = Some rows).
Proof.
  intros Hrows.
  unfold Fallible.analyze_log_file, Fallible.try_except, Fallible.bind,
    Fallible.lift.
  destruct (scan_file (Fallible.open_file env) log_file) as [outcome|e].
  - destruct (Fallible.append_row env
                (verdict_row (basename log_file) (Ok outcome)) w)
      as [[[]|e1] w1] eqn:Hfirst.
    + intros H. injection H as <- <-.
      destruct (append_row_effect _ _ _ _ _ _ Hrows Hfirst)
        as [[_ Hw1] | [[e He] _]]; [| discriminate He].
      left. split; [reflexivity|]. eexists. split; [| exact Hw1].
      apply verdict_row_of_file.
    + destruct (append_row_effect _ _ _ _ _ _ Hrows Hfirst)
        as [[He _] | [_ Hw1]]; [discriminate He|].
      intros Hsecond.
      destruct (append_row_effect _ _ _ _ _ _ Hw1 Hsecond)
        as [[-> Hw'] | [Hres Hw']].
      * left. split; [reflexivity|]. eexists. split; [| exact Hw'].
        apply verdict_row_of_file.
      * right. split; assumption.
  - intros Hsecond.
    destruct (append_row_effect _ _ _ _ _ _ Hrows Hsecond)
      as [[-> Hw'] | [Hres Hw']].
    + left. split; [reflexivity|]. eexists. split; [| exact Hw'].
      apply verdict_row_of_file.
    + right. split; assumption.
Qed.

(** The loop appends the row of each file in turn; when it raises, the
    rows of the files before the failing step are in the report. *)
Lemma analyze_each_effect (env : Fallible.environment) (n : nat)
  (log_files : list string) :
  forall (i : nat) (w : Fallible.world) (rows : list row) (res : exc unit)
    (w' : Fallible.world),
    Fallible.report_file w = Some rows ->
    Fallible.analyze_each env i n log_files w = (res, w') ->
    exists new : list row,
      Fallible.report_file w' = Some (rows ++ new)%list
      /\ Forall2 row_of_file (firstn (length new) log_files) new
      /\ (res = Ok tt -> length new = length log_files).
Proof.
  induction log_files as [|f log_files IH]; intros i w rows res w' Hrows H.
  - cbn [Fallible.analyze_each] in H. unfold Fallible.ret in H.
    injection H as <- <-. exists []. rewrite app_nil_r.
    split; [exact Hrows|]. split; [constructor | reflexivity].
  - cbn [Fallible.analyze_each] in H. unfold Fallible.bind at 1 in H.
    destruct (Fallible.print env (Fallible.analyzing_message i n f) w)
      as [[[]|e] w1] eqn:Hprint;
      pose proof (print_effect _ _ _ _ _ Hprint) as Hw1;
      rewrite Hrows in Hw1.
    + unfold Fallible.bind at 1 in H.
      destruct (Fallible.analyze_log_file env f w1) as [[[]|e] w2] eqn:Hf.
      * destruct (analyze_log_file_effect _ _ _ _ _ _ Hw1 Hf)
          as [[_ (r & Hr & Hw2)] | [[e He] _]]; [| discriminate He].
        destruct (IH _ _ _ _ _ Hw2 H) as (new & Hw' & Hnew & Hlen).
        exists (r :: new). rewrite <- app_assoc in Hw'.
        split; [exact Hw'|]. split.
        -- cbn [length firstn]. constructor; assumption.
        -- intros Hres. cbn [length]. rewrite (Hlen Hres). reflexivity.
      * destruct (analyze_log_file_effect _ _ _ _ _ _ Hw1 Hf)
          as [[He _] | [_ Hw2]]; [discriminate He|].
        injection H as <- <-. exists []. rewrite app_nil_r.
        split; [exact Hw2|]. split; [constructor | discriminate].
    + injection H as <- <-. exists []. rewrite app_nil_r.
      split; [exact Hw1|]. split; [constructor | discriminate].
Qed.

(** X13.  When [main] finds log files and returns without raising, the
    report is the header row followed by exactly one row per file found,
    in the order of discovery; the row of a file holds its base name, the
    status ["PASSED"] or ["FAILED"], a final state and a text. *)
Theorem report_shape (env : Fallible.environment) (w w' : Fallible.world) :
  find_log_files (Fallible.cwd env) (Fallible.tree env) <> [] ->
  Fallible.main env w = (Ok tt, w') ->
  exists rows : list row,
    Fallible.report_file w' = Some (REPORT_HEADER :: rows)
    /\ Forall2 row_of_file
         (find_log_files (Fallible.cwd env) (Fallible.tree env)) rows
    /\ length rows
       = length (find_log_files (Fallible.cwd env) (Fallible.tree env)).
Proof.
  intros Hfound. unfold Fallible.main.
  destruct (find_log_files (Fallible.cwd env) (Fallible.tree env))
    as [|f log_files]; [contradiction|].
  set (files := f :: log_files). clearbody files.
  unfold Fallible.bind at 1.
  destruct (Fallible.remove_report env w) as [[[]|e] w1];
    [| discriminate].
  unfold Fallible.bind at 1.
  unfold Fallible.write_header at 1.
  destruct (Fallible.write_error env [] REPORT_HEADER) as [[e|e]|];
    [discriminate | discriminate |].
  unfold Fallible.bind at 1.
  destruct (Fallible.analyze_each env 1 (length files) files _)
    as [[[]|e] w2] eqn:Hloop; [| discriminate].
  intros Hlast.
  pose proof (print_effect _ _ _ _ _ Hlast) as Hw'.
  pose proof (fun Hr => analyze_each_effect _ _ _ _ _ [REPORT_HEADER] _ _
                         Hr Hloop) as Heffect.
  destruct (Heffect eq_refl) as (rows & Hw2 & Hrows & Hlen).
  specialize (Hlen eq_refl).
  exists rows. rewrite Hw', Hw2.
  split; [reflexivity|].
  rewrite Hlen, firstn_all in Hrows. split; assumption.
Qed.

Lemma report_shape_witness :
  exists rows : list row,
    Fallible.report_file
      (snd (Fallible.main BATCH_ENV
              {| Fallible.console := [];
                 Fallible.report_file := Some [[CStr "stale"]] |}))
    = Some (REPORT_HEADER :: rows)
    /\ Forall2 row_of_file
         (find_log_files (Fallible.cwd BATCH_ENV) (Fallible.tree BATCH_ENV))
         rows
    /\ length rows
       = length (find_log_files (Fallible.cwd BATCH_ENV)
                   (Fallible.tree BATCH_ENV)).
Proof.
  apply (report_shape BATCH_ENV
           {| Fallible.console := [];
              Fallible.report_file := Some [[CStr "stale"]] |}).
  - discriminate.
  - vm_compute. reflexivity.
Defined.



(** ** The run in which nothing fails *)

Section NoFailure.

Variable env : Fallible.environment.
Hypothesis Hwrite : forall rows r, Fallible.write_error env rows r = None.
Hypothesis Hprint : forall text, Fallible.print_error env text = None.



End NoFailure.



(** ** The two bond deletion patterns *)

(** X14.  Every line that contains the text of a successful bond deletion
    also contains the text tested for a failed one, so the order of the two
    tests decides.  On a line that matches none of the three patterns
    tested before them, the event is bond deletion exactly when the
    success text occurs, and failed bond deletion exactly when the
    deletion text occurs without the success status. *)
Theorem bond_deletion_lines (line : string) :
  (re_search PAT_BOND_DELETION_OK line = true ->
   re_search PAT_BOND_DELETION_ANY line = true)
  /\ (re_search PAT_PAIRING_STARTED line = false ->
      re_search PAT_PAIRING_COMPLETE line = false ->
      re_search PAT_LINK0_TERMINATED line = false ->
      (extract_event line = Some EVENT_BOND_DELETION
       <-> re_search PAT_BOND_DELETION_OK line = true)
      /\ (extract_event line = Some EVENT_BOND_DELETION_FAILED
          <-> re_search PAT_BOND_DELETION_ANY line = true
              /\ re_search PAT_BOND_DELETION_OK line = false)).
Proof.
  split; [apply bond_deletion_ok_matches_any|].
  intros H1 H2 H3. unfold extract_event. rewrite H1, H2, H3.
  destruct (re_search PAT_BOND_DELETION_OK line);
    destruct (re_search PAT_BOND_DELETION_ANY line);
    destruct (re_search PAT_LINK1_TERMINATED line);
    (split; split); intros H; try discriminate H; try reflexivity;
    try (split; reflexivity); destruct H as [Ha Hb]; discriminate.
Qed.

Lemma bond_deletion_lines_witness :
  re_search PAT_BOND_DELETION_OK
    "BLE Cloud Event: Bond Deletion - Deletion Type: 02 | Status: 00 (ok)"
  = true
  /\ re_search PAT_BOND_DELETION_ANY
       "BLE Cloud Event: Bond Deletion - Deletion Type: 02 | Status: 00 (ok)"
     = true.
Proof.
  split; [reflexivity|].
  apply (proj1 (bond_deletion_lines
    "BLE Cloud Event: Bond Deletion - Deletion Type: 02 | Status: 00 (ok)")).
  reflexivity.
Defined.

(** ** Reading a failed row *)

Lemma refusal_listed (ev st st' : Z) (d : string) :
  (0 <= st <= 8)%Z ->
  owner_swap_state_machine ev st = (st', d) ->
  d <> "OK" ->
  In (st', d) REFUSALS.
Proof.
  intros Hst. unfold REFUSALS.
  fsm_cases; intros H Hd; injection H as <- <-;
    try (exfalso; apply Hd; reflexivity); subst;
    try (exfalso; unfold_codes; lia); simpl In; tauto.
Qed.

(** X15.  When a scan ends with a diagnostic other than ["OK"], the pair
    of final state and diagnostic is one of the ten pairs of [REFUSALS]:
    each diagnostic names the state in which the scan stopped, except
    ["Bond Deletion failed"], which is answered in two states. *)
Theorem failed_row_names_stop_state (lines : list string) (st : Z)
  (d : string) :
  scan_lines (text_lines lines) STATE_WAITING_FOR_OWNER_PAIRING "OK"
  = Ok (st, d) ->
  d <> "OK" ->
  In (st, d) REFUSALS.
Proof.
  intros H Hd.
  destruct (stop_point lines _ _ _ H Hd) as (pre & line & post & _ & Hp & Hm).
  assert (H0 : (0 <= STATE_WAITING_FOR_OWNER_PAIRING <= 8)%Z)
    by (cbv; split; discriminate).
  destruct (scan_lines_known _ _ _ _ _ H0 (or_introl eq_refl) Hp)
    as [Hst _].
  unfold match_line in Hm.
  destruct (extract_event line) as [ev|]; [| discriminate Hm].
  injection Hm as Hm.
  exact (refusal_listed ev st st d Hst Hm Hd).
Qed.

Lemma failed_row_names_stop_state_witness :
  In (STATE_OWNER_SWAP_COMPLETED, "Bond Deletion failed") REFUSALS.
Proof.
  apply (failed_row_names_stop_state
           ["Owner Pairing Started"; "Owner Pairing Complete!";
            "Owner Pairing Started"; "Link Terminated Received, link 0x00";
            "Owner Pairing Complete!";
            "BLE Cloud Event: Bond Deletion - Deletion Type: 02 | Status: 03"]
           STATE_OWNER_SWAP_COMPLETED "Bond Deletion failed").
  - reflexivity.
  - discriminate.
Defined.
